(** * walk: event publishing, model bases and the native message bridge

    A shallow embedding of the observer core of the walk GUI toolkit:
    the publishers of [event.go] / [intevent.go], the model helpers of
    [models.go] and the window procedures of [button.go] and
    [numberedit.go].

    Go values are rendered as follows.  [int], [uint32], [uintptr] and
    window handles are [Z]; [float64] is the primitive binary64 [float];
    [string] is [string]; an [error] result is [option error] with [None]
    for [nil].  A method with a pointer receiver takes the state of the
    whole program, a [World], and returns the new one: the receiver is
    the [self] component, the state owned by application code is [app].
    A handler is a Go closure; it is identified by a number and its code
    is looked up in a table of [Closures], so that a closure may change
    the very object it is subscribed to. *)

From Stdlib Require Import ZArith List Bool Lia String Floats.
Import ListNotations.

Set Implicit Arguments.

(* ================================================================== *)
(** * Part I: definitions *)
(* ================================================================== *)

Definition error : Type := string.

(** The receiver object together with the state of the application. *)
Record World (M A : Type) : Type := mkWorld { self : M; app : A }.

(** What a method hands back: its Go return value, the world it leaves
    behind and, for observation only, one entry per [Publish] call it
    made, each entry listing the handler calls of that [Publish]. *)
Record Outcome (R W C : Type) : Type :=
  mkOutcome { ret : R; after : W; published : list (list C) }.

(* ------------------------------------------------------------------ *)
(** ** Events and publishers *)

Module Events.

(** Identity of a handler closure. *)
Definition Handler : Type := nat.

(** Modelled from the spec: [event.go] and [intevent.go] (the types
    [Event], [IntEvent], [EventPublisher], [IntEventPublisher] and their
    methods [Attach], [Detach], [Event], [Publish]) are not among the
    sources.  The spec gives a publisher an ordered collection of
    handlers whose insertion order is the invocation order; [Attach]
    appends and does not look for duplicates; [Detach] removes the first
    match and does nothing when there is none; [Publish] iterates a
    snapshot of the subscriber list taken at call time. *)
Fixpoint detachFirst (handler : Handler) (hs : list Handler) : list Handler :=
  match hs with
  | [] => []
  | h :: rest => if Nat.eqb h handler then rest else h :: detachFirst handler rest
  end.

(** Modelled from the spec: the type [Event] of the missing [event.go],
    the handle through which handlers subscribe to a zero-argument
    event; it holds the subscription list, in attachment order. *)
Record Event : Type := mkEvent { handlers : list Handler }.

(** Modelled from the spec: the type [IntEvent] of the missing
    [intevent.go], the variant whose handlers take one integer. *)
Record IntEvent : Type := mkIntEvent { intHandlers : list Handler }.

(** Modelled from the spec: [Event.Attach] of the missing [event.go]:
    appends handler to the subscription list. *)
Definition Event_Attach (handler : Handler) (e : Event) : Event :=
  mkEvent (handlers e ++ [handler]).

(** Modelled from the spec: [Event.Detach] of the missing [event.go]:
    removes a previously attached handler (the first match); a no-op when
    the handler is not present. *)
Definition Event_Detach (handler : Handler) (e : Event) : Event :=
  mkEvent (detachFirst handler (handlers e)).

(** Modelled from the spec: [IntEvent.Attach] of the missing
    [intevent.go], the integer-payload twin of [Event.Attach]. *)
Definition IntEvent_Attach (handler : Handler) (e : IntEvent) : IntEvent :=
  mkIntEvent (intHandlers e ++ [handler]).

(** Modelled from the spec: [IntEvent.Detach] of the missing
    [intevent.go], the integer-payload twin of [Event.Detach]. *)
Definition IntEvent_Detach (handler : Handler) (e : IntEvent) : IntEvent :=
  mkIntEvent (detachFirst handler (intHandlers e)).

(** Modelled from the spec: the type [EventPublisher] of the missing
    [event.go]; it owns the subscribed handlers of one event. *)
Record EventPublisher : Type := mkEventPublisher { event : Event }.

(** Modelled from the spec: the type [IntEventPublisher] of the missing
    [intevent.go]. *)
Record IntEventPublisher : Type := mkIntEventPublisher { intEvent : IntEvent }.

(** The zero values Go gives to a publisher field: no subscriber. *)
Definition EventPublisher_zero : EventPublisher := mkEventPublisher (mkEvent []).

Definition IntEventPublisher_zero : IntEventPublisher :=
  mkIntEventPublisher (mkIntEvent []).

(** Modelled from the spec: [EventPublisher.Event] of the missing
    [event.go]: the handle bound to this publisher's subscription list. *)
Definition EventPublisher_Event (p : EventPublisher) : Event := event p.

(** Modelled from the spec: [IntEventPublisher.Event] of the missing
    [intevent.go]. *)
Definition IntEventPublisher_Event (p : IntEventPublisher) : IntEvent := intEvent p.

(** One handler call made by a [Publish]: which closure, with which
    payload, and the world the closure was started in. *)
Inductive Call (W : Type) : Type :=
| CallEvent (h : Handler) (seen : W)
| CallIntEvent (h : Handler) (value : Z) (seen : W).

Arguments CallEvent {W} h seen.
Arguments CallIntEvent {W} h value seen.

Definition callee {W : Type} (c : Call W) : Handler :=
  match c with
  | CallEvent h _ => h
  | CallIntEvent h _ _ => h
  end.

Definition seen {W : Type} (c : Call W) : W :=
  match c with
  | CallEvent _ w => w
  | CallIntEvent _ _ w => w
  end.

Definition isIntCall {W : Type} (c : Call W) : bool :=
  match c with
  | CallEvent _ _ => false
  | CallIntEvent _ _ _ => true
  end.

(** The code behind the handler identities: [func()] closures for
    [Event], [func(int)] closures for [IntEvent]. *)
Record Closures (W : Type) : Type := mkClosures {
  callEvent : Handler -> W -> W;
  callIntEvent : Handler -> Z -> W -> W
}.

Section Publish.

Context {W : Type}.

(** Modelled from the spec: the loop of [Publish] in the missing
    [event.go] and [intevent.go].  The handlers of the snapshot are
    called one after the other, each in the world its predecessor left;
    [note] writes down each call. *)
Fixpoint dispatch (invoke : Handler -> W -> W) (note : Handler -> W -> Call W)
    (snapshot : list Handler) (w : W) : W * list (Call W) :=
  match snapshot with
  | [] => (w, [])
  | h :: rest =>
      let r := dispatch invoke note rest (invoke h w) in
      (fst r, note h w :: snd r)
  end.

(** Modelled from the spec: [EventPublisher.Publish] of the missing
    [event.go]: invokes every currently-subscribed handler in attachment
    order, over the subscriber list as it is when the call starts.
    [this] locates the receiver in the world. *)
Definition EventPublisher_Publish (cl : Closures W) (this : W -> EventPublisher)
    (w : W) : W * list (Call W) :=
  dispatch (callEvent cl) CallEvent (handlers (event (this w))) w.

(** Modelled from the spec: [IntEventPublisher.Publish] of the missing
    [intevent.go]: as [EventPublisher.Publish], passing the payload. *)
Definition IntEventPublisher_Publish (cl : Closures W) (this : W -> IntEventPublisher)
    (value : Z) (w : W) : W * list (Call W) :=
  dispatch (fun h => callIntEvent cl h value) (fun h => CallIntEvent h value)
    (intHandlers (intEvent (this w))) w.

End Publish.

(** Handlers that count their calls in the application's state. *)
Definition counting (M : Type) : Closures (World M nat) :=
  mkClosures
    (fun _ w => mkWorld (self w) (S (app w)))
    (fun _ _ w => mkWorld (self w) (S (app w))).

End Events.

(* ------------------------------------------------------------------ *)
(** ** A program that attaches, detaches and publishes *)

Module Bus.

Import Events.

(** The two kinds of publisher. *)
Inductive Chan : Type := ChEvent | ChIntEvent.

Definition Chan_eqb (a b : Chan) : bool :=
  match a, b with
  | ChEvent, ChEvent => true
  | ChIntEvent, ChIntEvent => true
  | _, _ => false
  end.

(** An [Attach] or [Detach] call that was executed. *)
Inductive SubCall : Type :=
| Attached (c : Chan) (h : Handler)
| Detached (c : Chan) (h : Handler).

(** An [EventPublisher] and an [IntEventPublisher], and the record of
    the [Attach] and [Detach] calls executed on them so far, oldest
    first.  The record is kept for stating properties; no operation
    reads it. *)
Record Publishers : Type := mkPublishers {
  publisher : EventPublisher;
  intPublisher : IntEventPublisher;
  history : list SubCall
}.

Definition fresh : Publishers :=
  mkPublishers EventPublisher_zero IntEventPublisher_zero [].

Definition subscribed (c : Chan) (p : Publishers) : list Handler :=
  match c with
  | ChEvent => handlers (EventPublisher_Event (publisher p))
  | ChIntEvent => intHandlers (IntEventPublisher_Event (intPublisher p))
  end.

(** [p.Event().Attach(h)] on the publisher of kind [c]. *)
Definition attach (c : Chan) (h : Handler) (p : Publishers) : Publishers :=
  match c with
  | ChEvent =>
      mkPublishers
        (mkEventPublisher (Event_Attach h (EventPublisher_Event (publisher p))))
        (intPublisher p) (history p ++ [Attached c h])
  | ChIntEvent =>
      mkPublishers (publisher p)
        (mkIntEventPublisher (IntEvent_Attach h (IntEventPublisher_Event (intPublisher p))))
        (history p ++ [Attached c h])
  end.

(** [p.Event().Detach(h)] on the publisher of kind [c]. *)
Definition detach (c : Chan) (h : Handler) (p : Publishers) : Publishers :=
  match c with
  | ChEvent =>
      mkPublishers
        (mkEventPublisher (Event_Detach h (EventPublisher_Event (publisher p))))
        (intPublisher p) (history p ++ [Detached c h])
  | ChIntEvent =>
      mkPublishers (publisher p)
        (mkIntEventPublisher (IntEvent_Detach h (IntEventPublisher_Event (intPublisher p))))
        (history p ++ [Detached c h])
  end.

Section Program.

(** State of the application code. *)
Variable A : Type.

Definition State : Type := World Publishers A.

(** What the body of a handler does, statement by statement: subscribe
    or unsubscribe some handler, or update the application's state.  A
    handler that publishes again is not described. *)
Inductive Action : Type :=
| DoAttach (c : Chan) (h : Handler)
| DoDetach (c : Chan) (h : Handler)
| DoApp (f : A -> A).

Definition perform (s : State) (a : Action) : State :=
  match a with
  | DoAttach c h => mkWorld (attach c h (self s)) (app s)
  | DoDetach c h => mkWorld (detach c h (self s)) (app s)
  | DoApp f => mkWorld (self s) (f (app s))
  end.

(** The handler bodies of a program: the statements a handler executes,
    chosen by the handler from the state it is called in. *)
Record Bodies : Type := mkBodies {
  onEvent : Handler -> State -> list Action;
  onIntEvent : Handler -> Z -> State -> list Action
}.

Definition closures (b : Bodies) : Closures State :=
  mkClosures
    (fun h s => fold_left perform (onEvent b h s) s)
    (fun h v s => fold_left perform (onIntEvent b h v s) s).

(** [Publish] on the publisher of kind [c]; the payload is used by the
    integer publisher only. *)
Definition publish (b : Bodies) (c : Chan) (value : Z) (s : State)
    : State * list (Call State) :=
  match c with
  | ChEvent => EventPublisher_Publish (closures b) (fun s => publisher (self s)) s
  | ChIntEvent =>
      IntEventPublisher_Publish (closures b) (fun s => intPublisher (self s)) value s
  end.

(** The calls the owner of the publishers makes. *)
Inductive Op : Type :=
| OpAttach (c : Chan) (h : Handler)
| OpDetach (c : Chan) (h : Handler)
| OpPublish
| OpPublishInt (value : Z).

Definition step (b : Bodies) (s : State) (o : Op) : State :=
  match o with
  | OpAttach c h => perform s (DoAttach c h)
  | OpDetach c h => perform s (DoDetach c h)
  | OpPublish => fst (publish b ChEvent 0%Z s)
  | OpPublishInt v => fst (publish b ChIntEvent v s)
  end.

Definition run (b : Bodies) (ops : list Op) (s : State) : State :=
  fold_left (step b) ops s.

End Program.

Arguments DoAttach {A} c h.
Arguments DoDetach {A} c h.

(** A program whose handler 1, a [func()], detaches handler 2 from the
    [EventPublisher]; no other handler does anything. *)
Definition detacher : Bodies unit :=
  mkBodies
    (fun h _ => if Nat.eqb h 1 then [DoDetach ChEvent 2] else [])
    (fun _ _ _ => []).

(** *** Reading the record of executed calls *)

Definition isAttach (c : Chan) (h : Handler) (e : SubCall) : bool :=
  match e with
  | Attached c' h' => Chan_eqb c' c && Nat.eqb h' h
  | Detached _ _ => false
  end.

Definition isDetach (c : Chan) (h : Handler) (e : SubCall) : bool :=
  match e with
  | Attached _ _ => false
  | Detached c' h' => Chan_eqb c' c && Nat.eqb h' h
  end.

(** Number of attachments of [h] on [c] that no later [Detach] has taken
    back: an [Attach] adds one, a [Detach] takes one back if there is
    one. *)
Definition outstanding (c : Chan) (h : Handler) (hist : list SubCall) : nat :=
  fold_left
    (fun n e => if isAttach c h e then S n else if isDetach c h e then pred n else n)
    hist 0.

(** The handlers attached on [c], in the order of their attachment. *)
Definition attachments (c : Chan) (hist : list SubCall) : list Handler :=
  flat_map
    (fun e => match e with
              | Attached c' h => if Chan_eqb c' c then [h] else []
              | Detached _ _ => []
              end)
    hist.

(** [Subseq l m]: [l] is [m] with some elements left out, the others in
    the same order. *)
Inductive Subseq {T : Type} : list T -> list T -> Prop :=
| Subseq_nil : Subseq [] []
| Subseq_skip : forall l m x, Subseq l m -> Subseq l (x :: m)
| Subseq_keep : forall l m x, Subseq l m -> Subseq (x :: l) (x :: m).

(** The publishers agree with the record of executed calls: a handler
    is subscribed as many times as it has attachments outstanding, and
    the subscribers stand in the order in which they were attached. *)
Definition consistent (p : Publishers) : Prop :=
  (forall c h, count_occ Nat.eq_dec (subscribed c p) h = outstanding c h (history p)) /\
  (forall c, Subseq (subscribed c p) (attachments c (history p))).

(** A property the calls of one [Publish] may or may not have: a
    handler is only ever called while it is subscribed, so that a
    handler detached earlier, be it by a handler of the same [Publish],
    is not called. *)
Definition calledWhileSubscribed {A : Type} (c : Chan) (calls : list (Call (State A)))
    : Prop :=
  Forall (fun k => In (callee k) (subscribed c (self (seen k)))) calls.

End Bus.

(* ------------------------------------------------------------------ *)
(** ** models.go *)

Module Models.

Import Events.

(** [ListModelBase] implements the [ItemsReset] and [ItemChanged] methods
    of the [ListModel] interface. *)
Record ListModelBase : Type := mkListModelBase {
  itemsResetPublisher : EventPublisher;
  itemChangedPublisher : IntEventPublisher
}.

(** [TableModelBase] implements the [RowsReset] and [RowChanged] methods
    of the [TableModel] interface. *)
Record TableModelBase : Type := mkTableModelBase {
  rowsResetPublisher : EventPublisher;
  rowChangedPublisher : IntEventPublisher
}.

(** [type SortOrder int] with its two named values. *)
Definition SortOrder : Type := Z.

Definition SortAscending : SortOrder := 0%Z.

Definition SortDescending : SortOrder := 1%Z.

Record SorterBase : Type := mkSorterBase {
  changedPublisher : EventPublisher;
  col : Z;
  order : SortOrder
}.

Definition ListModelBase_zero : ListModelBase :=
  mkListModelBase EventPublisher_zero IntEventPublisher_zero.

Definition TableModelBase_zero : TableModelBase :=
  mkTableModelBase EventPublisher_zero IntEventPublisher_zero.

Definition SorterBase_zero : SorterBase := mkSorterBase EventPublisher_zero 0%Z 0%Z.

Definition ListModelBase_ItemsReset (lmb : ListModelBase) : Event :=
  EventPublisher_Event (itemsResetPublisher lmb).

Definition ListModelBase_ItemChanged (lmb : ListModelBase) : IntEvent :=
  IntEventPublisher_Event (itemChangedPublisher lmb).

Definition TableModelBase_RowsReset (tmb : TableModelBase) : Event :=
  EventPublisher_Event (rowsResetPublisher tmb).

Definition TableModelBase_RowChanged (tmb : TableModelBase) : IntEvent :=
  IntEventPublisher_Event (rowChangedPublisher tmb).


Definition SorterBase_ColumnSortable (sb : SorterBase) (c : Z) : bool := true.

Definition SorterBase_SortedColumn (sb : SorterBase) : Z := col sb.

Definition SorterBase_SortOrder (sb : SorterBase) : SortOrder := order sb.

(** [lmb.ItemsReset().Attach(h)]: the handle points into [lmb], so the
    subscription lands in the publisher of [lmb]. *)
Definition ListModelBase_ItemsReset_Attach (h : Handler) (lmb : ListModelBase)
    : ListModelBase :=
  mkListModelBase (mkEventPublisher (Event_Attach h (ListModelBase_ItemsReset lmb)))
    (itemChangedPublisher lmb).

(** [lmb.ItemChanged().Attach(h)]. *)
Definition ListModelBase_ItemChanged_Attach (h : Handler) (lmb : ListModelBase)
    : ListModelBase :=
  mkListModelBase (itemsResetPublisher lmb)
    (mkIntEventPublisher (IntEvent_Attach h (ListModelBase_ItemChanged lmb))).

Section Methods.

Variable A : Type.

Definition ListWorld : Type := World ListModelBase A.

Definition TableWorld : Type := World TableModelBase A.

Definition SorterWorld : Type := World SorterBase A.

Definition ListModelBase_PublishItemsReset (cl : Closures ListWorld) (w : ListWorld)
    : Outcome unit ListWorld (Call ListWorld) :=
  let r := EventPublisher_Publish cl (fun w => itemsResetPublisher (self w)) w in
  mkOutcome tt (fst r) [snd r].

Definition ListModelBase_PublishItemChanged (cl : Closures ListWorld) (index : Z)
    (w : ListWorld) : Outcome unit ListWorld (Call ListWorld) :=
  let r := IntEventPublisher_Publish cl (fun w => itemChangedPublisher (self w)) index w in
  mkOutcome tt (fst r) [snd r].

Definition TableModelBase_PublishRowsReset (cl : Closures TableWorld) (w : TableWorld)
    : Outcome unit TableWorld (Call TableWorld) :=
  let r := EventPublisher_Publish cl (fun w => rowsResetPublisher (self w)) w in
  mkOutcome tt (fst r) [snd r].

Definition TableModelBase_PublishRowChanged (cl : Closures TableWorld) (row : Z)
    (w : TableWorld) : Outcome unit TableWorld (Call TableWorld) :=
  let r := IntEventPublisher_Publish cl (fun w => rowChangedPublisher (self w)) row w in
  mkOutcome tt (fst r) [snd r].

(** [sb.col, sb.order = col, order], then the publish, then [return nil]. *)
Definition SorterBase_Sort (cl : Closures SorterWorld) (c : Z) (o : SortOrder)
    (w : SorterWorld) : Outcome (option error) SorterWorld (Call SorterWorld) :=
  let w1 := mkWorld (mkSorterBase (changedPublisher (self w)) c o) (app w) in
  let r := EventPublisher_Publish cl (fun w => changedPublisher (self w)) w1 in
  mkOutcome None (fst r) [snd r].

(** The handlers of the program leave the sort state alone: none of
    them calls [Sort] again. *)
Definition keepsSortState (cl : Closures SorterWorld) : Prop :=
  forall h w, col (self (callEvent cl h w)) = col (self w) /\
              order (self (callEvent cl h w)) = order (self w).

End Methods.

(** A sorter on column 5, ascending, with two subscribers. *)
Definition sorterSample : SorterWorld nat :=
  mkWorld (mkSorterBase (mkEventPublisher (mkEvent [1; 2])) 5%Z SortAscending) 0.

(** *** A recorder *)

(** What a recording handler writes down. *)
Inductive Entry : Type :=
| Changed (index : Z)
| Reset.

(** Every [func()] handler appends [Reset] to the log, every [func(int)]
    handler appends [Changed] with the index it was given. *)
Definition recorder : Closures (ListWorld (list Entry)) :=
  mkClosures
    (fun _ w => mkWorld (self w) (app w ++ [Reset]))
    (fun _ index w => mkWorld (self w) (app w ++ [Changed index])).

(** Construct a model base, attach a recorder to each channel, publish
    an item change and then a reset; the result is the log. *)
Definition recordedRun (hChanged hReset : Handler) (index : Z) : list Entry :=
  let lmb0 := ListModelBase_zero in
  let lmb1 := ListModelBase_ItemChanged_Attach hChanged lmb0 in
  let lmb2 := ListModelBase_ItemsReset_Attach hReset lmb1 in
  let w0 := mkWorld lmb2 [] in
  let w1 := after (ListModelBase_PublishItemChanged recorder index w0) in
  let w2 := after (ListModelBase_PublishItemsReset recorder w1) in
  app w2.

End Models.

(* ------------------------------------------------------------------ *)
(** ** button.go and numberedit.go *)

Module Widgets.

Import Events.

Definition HWND : Type := Z.

(** The conversion [uint32(x)] of a [uintptr]. *)
Definition uint32 (x : Z) : Z := Z.land x 0xFFFFFFFF%Z.

(** [HIWORD] of go-winapi: the upper 16 bits of a 32-bit word. *)
Definition HIWORD (dw : Z) : Z := Z.land (Z.shiftr dw 16) 0xFFFF%Z.

(** The message and notification codes the window procedures compare
    with.  They are constants of go-winapi, taken here as given. *)
Record Codes : Type := mkCodes {
  WM_COMMAND : Z;
  WM_NOTIFY : Z;
  WM_SIZE : Z;
  WM_SIZING : Z;
  BN_CLICKED : Z;
  EN_CHANGE : Z;
  UDN_DELTAPOS : Z;
  UDM_SETBUDDY : Z
}.

Record Rectangle : Type := mkRectangle { X : Z; Y : Z; Width : Z; Height : Z }.

(** [math.SmallestNonzeroFloat64], 2^-1074. *)
Definition SmallestNonzeroFloat64 : float := 0x1p-1074%float.

(** The conversion [float64(i)] of an [int32]. *)
Definition float64_of_int32 (i : Z) : float :=
  if (i <? 0)%Z
  then PrimFloat.opp (PrimFloat.of_uint63 (Uint63.of_Z (- i)))
  else PrimFloat.of_uint63 (Uint63.of_Z i).

(** *** Button *)

Section Button.

(** [WB] is the state of the embedded [WidgetBase], [A] the state of the
    application. *)
Variables WB A : Type.

Record Button : Type := mkButton {
  Button_WidgetBase : WB;
  clickedPublisher : EventPublisher
}.

Definition ButtonWorld : Type := World Button A.

Variable codes : Codes.

(** [WidgetBase.WndProc], which is not among the sources: it works on
    the embedded [WidgetBase] and returns the result of the message. *)
Variable WidgetBase_WndProc : HWND -> Z -> Z -> Z -> WB -> Z * WB.

Variable cl : Closures ButtonWorld.


Definition Button_raiseClicked (w : ButtonWorld)
    : Outcome unit ButtonWorld (Call ButtonWorld) :=
  let r := EventPublisher_Publish cl (fun w => clickedPublisher (self w)) w in
  mkOutcome tt (fst r) [snd r].

Definition Button_WndProc (hwnd : HWND) (msg wParam lParam : Z) (w : ButtonWorld)
    : Outcome Z ButtonWorld (Call ButtonWorld) :=
  let handled :=
    if (msg =? WM_COMMAND codes)%Z then
      if (HIWORD (uint32 wParam) =? BN_CLICKED codes)%Z
      then Button_raiseClicked w
      else mkOutcome tt w []
    else mkOutcome tt w [] in
  let w1 := after handled in
  let r := WidgetBase_WndProc hwnd msg wParam lParam (Button_WidgetBase (self w1)) in
  mkOutcome (fst r)
    (mkWorld (mkButton (snd r) (clickedPublisher (self w1))) (app w1))
    (published handled).

End Button.

(** *** NumberEdit *)

Section NumberEdit.

(** [WB] is the state of the embedded [WidgetBase], [LE] that of the
    [LineEdit] the widget owns, [A] the state of the application. *)
Variables WB LE A : Type.

Record NumberEdit : Type := mkNumberEdit {
  NumberEdit_WidgetBase : WB;
  edit : LE;
  hWndUpDown : HWND;
  bindingMember : string;
  increment : float;
  oldValue : float;
  valueChangedPublisher : EventPublisher
}.

Definition NumberEditWorld : Type := World NumberEdit A.

(** What [numberedit.go] calls and the sources do not contain: methods
    of [WidgetBase], [LineEdit] and [NumberValidator], the helpers
    [parseFloat] and [formatFloat], [SendMessage], and the reads of the
    native structures [lParam] points to.  Setting the text or the bounds
    of the native edit control, and sending a message, may run code of
    their own, so they transform the whole world; none of them is a
    [Publish] of this window procedure. *)
Record Native : Type := mkNative {
  codes : Codes;
  WidgetBase_WndProc : HWND -> Z -> Z -> Z -> WB -> Z * WB;
  WidgetBase_ClientBounds : WB -> Rectangle;
  LineEdit_Text : LE -> string;
  LineEdit_hWnd : LE -> HWND;
  LineEdit_SetText : string -> NumberEditWorld -> option error * NumberEditWorld;
  LineEdit_SetBounds : Rectangle -> NumberEditWorld -> option error * NumberEditWorld;
  NumberValidator_Decimals : LE -> Z;
  parseFloat : string -> float * option error;
  formatFloat : float -> Z -> string * option error;
  Itoa_int : float -> string;
  SendMessage : HWND -> Z -> Z -> Z -> NumberEditWorld -> Z * NumberEditWorld;
  NMHDR_Code : Z -> Z;
  NMUPDOWN_IDelta : Z -> Z
}.

Variable env : Native.

Variable cl : Closures NumberEditWorld.

Definition NumberEdit_Decimals (ne : NumberEdit) : Z :=
  NumberValidator_Decimals env (edit ne).

(** [val, _ := parseFloat(ne.edit.Text()); return val] *)
Definition NumberEdit_Value (ne : NumberEdit) : float :=
  fst (parseFloat env (LineEdit_Text env (edit ne))).

Definition NumberEdit_SetValue (value : float) (w : NumberEditWorld)
    : option error * NumberEditWorld :=
  let prec := NumberEdit_Decimals (self w) in
  if (prec =? 0)%Z then LineEdit_SetText env (Itoa_int env value) w
  else
    match formatFloat env value prec with
    | (_, Some err) => (Some err, w)
    | (text, None) => LineEdit_SetText env text w
    end.


(** The guard of the [EN_CHANGE] case:
    [math.Abs(value-ne.oldValue) < math.SmallestNonzeroFloat64]. *)
Definition unchanged (value old : float) : bool :=
  PrimFloat.ltb (PrimFloat.abs (PrimFloat.sub value old)) SmallestNonzeroFloat64.

Definition setOldValue (v : float) (w : NumberEditWorld) : NumberEditWorld :=
  let ne := self w in
  mkWorld
    (mkNumberEdit (NumberEdit_WidgetBase ne) (edit ne) (hWndUpDown ne) (bindingMember ne)
       (increment ne) v (valueChangedPublisher ne))
    (app w).

Definition setWidgetBase (b : WB) (w : NumberEditWorld) : NumberEditWorld :=
  let ne := self w in
  mkWorld
    (mkNumberEdit b (edit ne) (hWndUpDown ne) (bindingMember ne)
       (increment ne) (oldValue ne) (valueChangedPublisher ne))
    (app w).

(** The [EN_CHANGE] case of [WndProc]. *)
Definition onChange (w : NumberEditWorld)
    : Outcome unit NumberEditWorld (Call NumberEditWorld) :=
  let value := NumberEdit_Value (self w) in
  if unchanged value (oldValue (self w)) then mkOutcome tt w []
  else
    let w1 := setOldValue value w in
    let r := EventPublisher_Publish cl (fun w => valueChangedPublisher (self w)) w1 in
    mkOutcome tt (fst r) [snd r].

(** The [UDN_DELTAPOS] case of [WndProc]; the error of [SetValue] is
    dropped. *)
Definition onDeltaPos (lParam : Z) (w : NumberEditWorld) : NumberEditWorld :=
  let val := NumberEdit_Value (self w) in
  let val' :=
    PrimFloat.sub val
      (PrimFloat.mul (float64_of_int32 (NMUPDOWN_IDelta env lParam)) (increment (self w))) in
  snd (NumberEdit_SetValue val' w).

(** The [WM_SIZE, WM_SIZING] case of [WndProc]. *)
Definition onSize (w : NumberEditWorld) : NumberEditWorld :=
  let cb := WidgetBase_ClientBounds env (NumberEdit_WidgetBase (self w)) in
  match LineEdit_SetBounds env cb w with
  | (Some _, w1) => w1
  | (None, w1) =>
      snd (SendMessage env (hWndUpDown (self w1)) (UDM_SETBUDDY (codes env))
             (LineEdit_hWnd env (edit (self w1))) 0%Z w1)
  end.

Definition NumberEdit_WndProc (hwnd : HWND) (msg wParam lParam : Z) (w : NumberEditWorld)
    : Outcome Z NumberEditWorld (Call NumberEditWorld) :=
  let handled :=
    if (hWndUpDown (self w) =? 0)%Z then mkOutcome tt w []
    else if (msg =? WM_COMMAND (codes env))%Z then
      if (HIWORD (uint32 wParam) =? EN_CHANGE (codes env))%Z
      then onChange w
      else mkOutcome tt w []
    else if (msg =? WM_NOTIFY (codes env))%Z then
      if (NMHDR_Code env lParam =? UDN_DELTAPOS (codes env))%Z
      then mkOutcome tt (onDeltaPos lParam w) []
      else mkOutcome tt w []
    else if (msg =? WM_SIZE (codes env))%Z || (msg =? WM_SIZING (codes env))%Z
      then mkOutcome tt (onSize w) []
    else mkOutcome tt w [] in
  let w1 := after handled in
  let r := WidgetBase_WndProc env hwnd msg wParam lParam (NumberEdit_WidgetBase (self w1)) in
  mkOutcome (fst r) (setWidgetBase (snd r) w1) (published handled).

End NumberEdit.

(** *** An environment to run the window procedures in *)

(** The codes as the Windows headers define them. *)
Definition win32 : Codes :=
  mkCodes 0x0111 0x004E 0x0005 0x0214 0 0x0300 0xFFFFFD2E 0x0469.

Fixpoint digits (s : string) (acc : Z) : option Z :=
  match s with
  | EmptyString => Some acc
  | String ch rest =>
      let n := Z.of_nat (Ascii.nat_of_ascii ch) in
      if (48 <=? n)%Z && (n <=? 57)%Z then digits rest (10 * acc + (n - 48))%Z else None
  end.

(** A stand-in for [parseFloat] that reads unsigned decimal integers and
    fails, with value zero, on everything else. *)
Definition toyParseFloat (s : string) : float * option error :=
  match s with
  | EmptyString => (0%float, Some "invalid syntax"%string)
  | _ =>
      match digits s 0%Z with
      | Some z => (float64_of_int32 z, None)
      | None => (0%float, Some "invalid syntax"%string)
      end
  end.

(** A widget whose base has no state, whose edit control is just its
    text, and whose native calls succeed and do nothing else. *)
Definition toyNative (A : Type) : Native unit string A :=
  mkNative win32
    (fun _ _ _ _ b => (0%Z, b))
    (fun _ => mkRectangle 0 0 0 0)
    (fun text => text)
    (fun _ => 1%Z)
    (fun text w =>
       let ne := self w in
       (None,
        mkWorld
          (mkNumberEdit (NumberEdit_WidgetBase ne) text (hWndUpDown ne) (bindingMember ne)
             (increment ne) (oldValue ne) (valueChangedPublisher ne))
          (app w)))
    (fun _ w => (None, w))
    (fun _ => 0%Z)
    toyParseFloat
    (fun _ _ => (EmptyString, Some "unsupported"%string))
    (fun _ => "0"%string)
    (fun _ _ _ _ w => (0%Z, w))
    (fun _ => 0%Z)
    (fun _ => 0%Z).

(** A number edit showing the text 5 whose last observed value is 0,
    with two subscribers of [ValueChanged]; [updown] is the handle of
    its up-down control. *)
Definition numberEditSample (updown : HWND) : NumberEditWorld unit string nat :=
  mkWorld
    (mkNumberEdit tt "5"%string updown EmptyString 1%float 0%float
       (mkEventPublisher (mkEvent [1; 2])))
    0.

(** The [wParam] of a [WM_COMMAND] that carries [EN_CHANGE] from the
    control with identifier 0. *)
Definition wParamChange : Z := 0x03000000%Z.

(** A button with three subscribers of [Clicked], and its window
    procedure over a base that answers 0. *)
Definition buttonSample : ButtonWorld unit nat :=
  mkWorld (mkButton tt (mkEventPublisher (mkEvent [4; 5; 6]))) 0.

Definition buttonProc (msg wParam : Z)
    : Outcome Z (ButtonWorld unit nat) (Call (ButtonWorld unit nat)) :=
  Button_WndProc win32 (fun _ _ _ _ b => (0%Z, b)) (counting (Button unit))
    0%Z msg wParam 0%Z buttonSample.

End Widgets.

(* ------------------------------------------------------------------ *)
(** ** metafile.go *)

Module Metafiles.

Definition HDC : Type := Z.

Definition HENHMETAFILE : Type := Z.

(** [walk.Size]. *)
Record Size : Type := mkSize { Width : Z; Height : Z }.

(** [walk.Point]. *)
Record Point : Type := mkPoint { X : Z; Y : Z }.

(** [RECT] of go-winapi; its fields are 32-bit integers. *)
Record RECT : Type := mkRECT { Left : Z; Top : Z; Right : Z; Bottom : Z }.

(** The value of a 32-bit signed result: wrapped into [-2^31, 2^31). *)
Definition wrap32 (z : Z) : Z := ((z + 2147483648) mod 4294967296 - 2147483648)%Z.

(** [newError] of walk, which is not among the sources: an error is
    represented by its message. *)
Definition newError (message : string) : error := message.

Record Metafile : Type := mkMetafile {
  hdc : HDC;
  hemf : HENHMETAFILE;
  size : Size
}.

(** The calls into GDI this file makes, as they are made. *)
Inductive GdiCall : Type :=
| CreateEnhMetaFile_ (reference : HDC)
| GetEnhMetaFile_ (filePath : string)
| CloseEnhMetaFile_ (h : HDC)
| DeleteEnhMetaFile_ (h : HENHMETAFILE)
| CopyEnhMetaFile_ (h : HENHMETAFILE) (filePath : string)
| GetEnhMetaFileHeader_ (h : HENHMETAFILE)
| PlayEnhMetaFile_ (h : HDC) (m : HENHMETAFILE) (rc : RECT).

Definition isDelete (c : GdiCall) : bool :=
  match c with
  | DeleteEnhMetaFile_ _ => true
  | _ => false
  end.

Definition isClose (c : GdiCall) : bool :=
  match c with
  | CloseEnhMetaFile_ _ => true
  | _ => false
  end.

Section Methods.

(** The state of the operating system. *)
Variable G : Type.

(** The GDI functions of go-winapi, each answering from the state of
    the operating system and changing it.  [GetEnhMetaFileHeader]
    answers with its return value and the [RclBounds] of the header it
    filled in. *)
Record Gdi : Type := mkGdi {
  CreateEnhMetaFile : HDC -> G -> HDC * G;
  GetEnhMetaFile : string -> G -> HENHMETAFILE * G;
  CloseEnhMetaFile : HDC -> G -> HENHMETAFILE * G;
  DeleteEnhMetaFile : HENHMETAFILE -> G -> bool * G;
  CopyEnhMetaFile : HENHMETAFILE -> string -> G -> HENHMETAFILE * G;
  GetEnhMetaFileHeader : HENHMETAFILE -> G -> (Z * RECT) * G;
  PlayEnhMetaFile : HDC -> HENHMETAFILE -> RECT -> G -> bool * G
}.

Variable gdi : Gdi.

(** [Rectangle.toRECT] of walk, which is not among the sources. *)
Variable toRECT : Widgets.Rectangle -> RECT.

(** The operating system and, for observation, the GDI calls made so
    far, oldest first. *)
Record Sys : Type := mkSys { os : G; calls : list GdiCall }.

(** What a function leaves: its Go result, the metafile it worked on
    and the system. *)
Record Step (R : Type) : Type := mkStep { value : R; metafile : Metafile; system : Sys }.

Definition native {R : Type} (c : GdiCall) (f : G -> R * G) (s : Sys) : R * Sys :=
  let r := f (os s) in
  (fst r, mkSys (snd r) (calls s ++ [c])).

(** The constructors return a pointer or [nil], and an error. *)
Definition NewMetafile (reference : HDC) (s : Sys) : option Metafile * option error * Sys :=
  let r := native (CreateEnhMetaFile_ reference) (CreateEnhMetaFile gdi reference) s in
  if (fst r =? 0)%Z
  then (None, Some (newError "CreateEnhMetaFile failed"), snd r)
  else (Some (mkMetafile (fst r) 0%Z (mkSize 0 0)), None, snd r).

Definition Metafile_readSizeFromHeader (mf : Metafile) (s : Sys) : Step (option error) :=
  let r := native (GetEnhMetaFileHeader_ (hemf mf)) (GetEnhMetaFileHeader gdi (hemf mf)) s in
  let bounds := snd (fst r) in
  if (fst (fst r) =? 0)%Z
  then mkStep (Some (newError "GetEnhMetaFileHeader failed")) mf (snd r)
  else
    mkStep None
      (mkMetafile (hdc mf) (hemf mf)
         (mkSize (wrap32 (Right bounds - Left bounds))
                 (wrap32 (Bottom bounds - Top bounds))))
      (snd r).

Definition NewMetafileFromFile (filePath : string) (s : Sys)
    : option Metafile * option error * Sys :=
  let r := native (GetEnhMetaFile_ filePath) (GetEnhMetaFile gdi filePath) s in
  if (fst r =? 0)%Z
  then (None, Some (newError "GetEnhMetaFile failed"), snd r)
  else
    let st := Metafile_readSizeFromHeader (mkMetafile 0%Z (fst r) (mkSize 0 0)) (snd r) in
    match value st with
    | Some err => (None, Some err, system st)
    | None => (Some (metafile st), None, system st)
    end.

Definition Metafile_ensureFinished (mf : Metafile) (s : Sys) : Step (option error) :=
  if (hdc mf =? 0)%Z then
    if (hemf mf =? 0)%Z
    then mkStep (Some (newError "already disposed")) mf s
    else mkStep None mf s
  else
    let r := native (CloseEnhMetaFile_ (hdc mf)) (CloseEnhMetaFile gdi (hdc mf)) s in
    let mf1 := mkMetafile (hdc mf) (fst r) (size mf) in
    if (fst r =? 0)%Z
    then mkStep (Some (newError "CloseEnhMetaFile failed")) mf1 (snd r)
    else Metafile_readSizeFromHeader (mkMetafile 0%Z (fst r) (size mf)) (snd r).

(** The error of [ensureFinished] is dropped. *)
Definition Metafile_Dispose (mf : Metafile) (s : Sys) : Step unit :=
  let st := Metafile_ensureFinished mf s in
  let mf1 := metafile st in
  if (hemf mf1 =? 0)%Z then mkStep tt mf1 (system st)
  else
    let r := native (DeleteEnhMetaFile_ (hemf mf1)) (DeleteEnhMetaFile gdi (hemf mf1))
               (system st) in
    mkStep tt (mkMetafile (hdc mf1) 0%Z (size mf1)) (snd r).

Definition Metafile_Save (mf : Metafile) (filePath : string) (s : Sys) : Step (option error) :=
  let r := native (CopyEnhMetaFile_ (hemf mf) filePath)
             (CopyEnhMetaFile gdi (hemf mf) filePath) s in
  if (fst r =? 0)%Z
  then mkStep (Some (newError "CopyEnhMetaFile failed")) mf (snd r)
  else
    mkStep None mf
      (snd (native (DeleteEnhMetaFile_ (fst r)) (DeleteEnhMetaFile gdi (fst r)) (snd r))).

Definition Metafile_Size (mf : Metafile) : Size := size mf.

Definition Metafile_drawStretched (mf : Metafile) (h : HDC) (bounds : Widgets.Rectangle)
    (s : Sys) : Step (option error) :=
  let rc := toRECT bounds in
  let r := native (PlayEnhMetaFile_ h (hemf mf) rc) (PlayEnhMetaFile gdi h (hemf mf) rc) s in
  if fst r then mkStep None mf (snd r)
  else mkStep (Some (newError "PlayEnhMetaFile failed")) mf (snd r).

Definition Metafile_draw (mf : Metafile) (h : HDC) (location : Point) (s : Sys)
    : Step (option error) :=
  Metafile_drawStretched mf h
    (Widgets.mkRectangle (X location) (Y location) (Width (size mf)) (Height (size mf))) s.

End Methods.

(** *** An operating system to run the functions on *)

(** Handles are numbered from 1 in the order they are handed out;
    [closes] and [headers] say whether [CloseEnhMetaFile] and
    [GetEnhMetaFileHeader] succeed.  Every header reports the bounds
    (10, 20) to (650, 500). *)
Definition toyGdi (closes headers : bool) : Gdi nat :=
  mkGdi
    (fun _ n => (Z.of_nat (S n), S n))
    (fun _ n => (Z.of_nat (S n), S n))
    (fun _ n => if closes then (Z.of_nat (S n), S n) else (0%Z, n))
    (fun _ n => (true, n))
    (fun _ _ n => (Z.of_nat (S n), S n))
    (fun _ n => if headers then ((108%Z, mkRECT 10 20 650 500), n)
                else ((0%Z, mkRECT 0 0 0 0), n))
    (fun _ _ _ n => (true, n)).

Definition toySys : Sys nat := mkSys 0 [].

(** A metafile that is being recorded into the device context 7. *)
Definition recording7 : Metafile := mkMetafile 7%Z 0%Z (mkSize 0 0).

(** A stand-in for [Rectangle.toRECT]: the corners of the rectangle. *)
Definition toyToRECT (r : Widgets.Rectangle) : RECT :=
  mkRECT (Widgets.X r) (Widgets.Y r)
    (Widgets.X r + Widgets.Width r) (Widgets.Y r + Widgets.Height r).

End Metafiles.

(* ------------------------------------------------------------------ *)
(** ** button.go: text and check state *)

Module ButtonOps.

Import Events Widgets.

Section Ops.

Variables WB A : Type.

(** What [button.go] calls and the sources do not contain: the window
    handle and the methods [SendMessage] and [updateParentLayout] of the
    embedded [WidgetBase], the helpers [widgetText] and [setWidgetText],
    and the button messages and check states of go-winapi. *)
Record ButtonNative : Type := mkButtonNative {
  BM_GETCHECK : Z;
  BM_SETCHECK : Z;
  BST_CHECKED : Z;
  BST_UNCHECKED : Z;
  WidgetBase_hWnd : WB -> HWND;
  widgetText : HWND -> ButtonWorld WB A -> string;
  setWidgetText : HWND -> string -> ButtonWorld WB A -> option error * ButtonWorld WB A;
  WidgetBase_updateParentLayout : ButtonWorld WB A -> option error * ButtonWorld WB A;
  WidgetBase_SendMessage : Z -> Z -> Z -> ButtonWorld WB A -> Z * ButtonWorld WB A
}.

Variable env : ButtonNative.

Definition Button_hWnd (w : ButtonWorld WB A) : HWND :=
  WidgetBase_hWnd env (Button_WidgetBase (self w)).

Definition Button_Text (w : ButtonWorld WB A) : string :=
  widgetText env (Button_hWnd w) w.

Definition Button_SetText (value : string) (w : ButtonWorld WB A)
    : option error * ButtonWorld WB A :=
  if String.eqb value (Button_Text w) then (None, w)
  else
    match setWidgetText env (Button_hWnd w) value w with
    | (Some err, w1) => (Some err, w1)
    | (None, w1) => WidgetBase_updateParentLayout env w1
    end.

Definition Button_Checked (w : ButtonWorld WB A) : bool * ButtonWorld WB A :=
  let r := WidgetBase_SendMessage env (BM_GETCHECK env) 0%Z 0%Z w in
  ((fst r =? BST_CHECKED env)%Z, snd r).

Definition Button_SetChecked (value : bool) (w : ButtonWorld WB A) : ButtonWorld WB A :=
  let chk := if value then BST_CHECKED env else BST_UNCHECKED env in
  snd (WidgetBase_SendMessage env (BM_SETCHECK env) chk 0%Z w).

(** The native button does what Windows documents: the text read back
    is the text last written, and a relayout of the parent does not
    touch it; neither changes the window handle. *)
Definition keepsText : Prop :=
  (forall h v w w', setWidgetText env h v w = (None, w') ->
     widgetText env h w' = v /\ Button_hWnd w' = Button_hWnd w) /\
  (forall h w, widgetText env h (snd (WidgetBase_updateParentLayout env w)) = widgetText env h w /\
               Button_hWnd (snd (WidgetBase_updateParentLayout env w)) = Button_hWnd w).

(** The native button answers [BM_GETCHECK] with the check state last
    set by [BM_SETCHECK]. *)
Definition keepsCheck : Prop :=
  forall chk w,
    fst (WidgetBase_SendMessage env (BM_GETCHECK env) 0%Z 0%Z
           (snd (WidgetBase_SendMessage env (BM_SETCHECK env) chk 0%Z w))) = chk.

End Ops.

(** A button whose base is its text and its check state.  Writing the
    text [bad] fails; the messages and states are those of the Windows
    headers. *)
Definition toyButtonNative (bad : string) : ButtonNative (string * Z) nat :=
  mkButtonNative 0x00F0 0x00F1 1 0
    (fun _ => 1%Z)
    (fun _ w => fst (Button_WidgetBase (self w)))
    (fun _ v w =>
       if String.eqb v bad then (Some "SetWindowText failed"%string, w)
       else (None,
             mkWorld (mkButton (v, snd (Button_WidgetBase (self w)))
                        (clickedPublisher (self w))) (app w)))
    (fun w => (None, w))
    (fun msg wParam _ w =>
       if (msg =? 0x00F1)%Z
       then (0%Z,
             mkWorld (mkButton (fst (Button_WidgetBase (self w)), wParam)
                        (clickedPublisher (self w))) (app w))
       else if (msg =? 0x00F0)%Z then (snd (Button_WidgetBase (self w)), w)
       else (0%Z, w)).

Definition toyButton : ButtonWorld (string * Z) nat :=
  mkWorld (mkButton ("OK"%string, 0%Z) EventPublisher_zero) 0.

End ButtonOps.

(* ------------------------------------------------------------------ *)
(** ** models.go: recording handlers and repeated sorting *)

Module ModelRuns.

Import Events Models.

(** Recording handlers for any model: a [func()] handler appends
    [Reset], a [func(int)] handler appends [Changed] with its index. *)
Definition recording (M : Type) : Closures (World M (list Entry)) :=
  mkClosures
    (fun _ w => mkWorld (self w) (app w ++ [Reset]))
    (fun _ index w => mkWorld (self w) (app w ++ [Changed index])).

(** The [Sort] requests of a list, made one after the other. *)
Fixpoint sortEach {A : Type} (cl : Closures (SorterWorld A)) (requests : list (Z * SortOrder))
    (w : SorterWorld A) : SorterWorld A * list (list (Call (SorterWorld A))) :=
  match requests with
  | [] => (w, [])
  | (c, o) :: rest =>
      let out := SorterBase_Sort cl c o w in
      let r := sortEach cl rest (after out) in
      (fst r, published out ++ snd r)
  end.

End ModelRuns.

(* ================================================================== *)
(** * Part II: properties *)
(* ================================================================== *)

(* ------------------------------------------------------------------ *)
(** ** The loop of [Publish] *)

Module EventsFacts.

Import Events.

Section Dispatch.

Context {W : Type}.

Variable invoke : Handler -> W -> W.

Variable note : Handler -> W -> Call W.

Hypothesis note_callee : forall h w, callee (note h w) = h.

Hypothesis note_seen : forall h w, seen (note h w) = w.

(** The calls of the loop are the handlers of the snapshot, one call
    each and in the same order, whatever the handlers do. *)
Lemma dispatch_callees : forall snapshot w,
  map callee (snd (dispatch invoke note snapshot w)) = snapshot.
Proof.
  induction snapshot as [|h rest IH]; intros w; simpl.
  - reflexivity.
  - rewrite note_callee, IH. reflexivity.
Qed.

Lemma dispatch_length : forall snapshot w,
  List.length (snd (dispatch invoke note snapshot w)) = List.length snapshot.
Proof.
  intros snapshot w. rewrite <- (dispatch_callees snapshot w) at 2.
  symmetry. apply length_map.
Qed.

(** A property of the world that every handler call keeps holds in the
    world each handler is started in, and in the world the loop leaves. *)
Lemma dispatch_invariant (P : W -> Prop) :
  (forall h w, P w -> P (invoke h w)) ->
  forall snapshot w, P w ->
    P (fst (dispatch invoke note snapshot w)) /\
    Forall (fun k => P (seen k)) (snd (dispatch invoke note snapshot w)).
Proof.
  intros keep. induction snapshot as [|h rest IH]; intros w Pw; simpl.
  - split; [assumption | constructor].
  - destruct (IH (invoke h w) (keep h w Pw)) as [Hfst Hsnd].
    split; [assumption|].
    constructor; [rewrite note_seen; assumption | assumption].
Qed.


End Dispatch.

Section Publish.

Context {W : Type}.

Variable cl : Closures W.

Lemma Publish_callees (this : W -> EventPublisher) (w : W) :
  map callee (snd (EventPublisher_Publish cl this w)) = handlers (event (this w)).
Proof.
  unfold EventPublisher_Publish. apply dispatch_callees. reflexivity.
Qed.

Lemma IntPublish_callees (this : W -> IntEventPublisher) (v : Z) (w : W) :
  map callee (snd (IntEventPublisher_Publish cl this v w)) = intHandlers (intEvent (this w)).
Proof.
  unfold IntEventPublisher_Publish. apply dispatch_callees. reflexivity.
Qed.

Lemma Publish_invariant (P : W -> Prop) (this : W -> EventPublisher) (w : W) :
  (forall h w, P w -> P (callEvent cl h w)) -> P w ->
  P (fst (EventPublisher_Publish cl this w)) /\
  Forall (fun k => P (seen k)) (snd (EventPublisher_Publish cl this w)).
Proof.
  intros keep Pw. unfold EventPublisher_Publish.
  apply dispatch_invariant; auto.
Qed.

Lemma IntPublish_invariant (P : W -> Prop) (this : W -> IntEventPublisher) (v : Z) (w : W) :
  (forall h w, P w -> P (callIntEvent cl h v w)) -> P w ->
  P (fst (IntEventPublisher_Publish cl this v w)) /\
  Forall (fun k => P (seen k)) (snd (IntEventPublisher_Publish cl this v w)).
Proof.
  intros keep Pw. unfold IntEventPublisher_Publish.
  apply dispatch_invariant; auto.
Qed.

(** The calls of an [EventPublisher] carry no payload, those of an
    [IntEventPublisher] carry the published value. *)
Lemma Publish_kind (this : W -> EventPublisher) (w : W) :
  Forall (fun k => k = CallEvent (callee k) (seen k))
    (snd (EventPublisher_Publish cl this w)).
Proof.
  unfold EventPublisher_Publish.
  generalize (handlers (event (this w))) as snapshot. revert w.
  intros w snapshot. revert w.
  induction snapshot as [|h rest IH]; intros w; simpl; constructor; auto.
Qed.

Lemma IntPublish_kind (this : W -> IntEventPublisher) (v : Z) (w : W) :
  Forall (fun k => k = CallIntEvent (callee k) v (seen k))
    (snd (IntEventPublisher_Publish cl this v w)).
Proof.
  unfold IntEventPublisher_Publish.
  generalize (intHandlers (intEvent (this w))) as snapshot.
  intros snapshot. revert w.
  induction snapshot as [|h rest IH]; intros w; simpl; constructor; auto.
Qed.

End Publish.

(** *** Removing the first match *)

Lemma detachFirst_absent : forall h hs, ~ In h hs -> detachFirst h hs = hs.
Proof.
  induction hs as [|x rest IH]; simpl; intros Hn.
  - reflexivity.
  - destruct (Nat.eqb_spec x h) as [E|N].
    + exfalso. apply Hn. left. assumption.
    + f_equal. apply IH. intros Hin. apply Hn. right. assumption.
Qed.

Lemma count_detachFirst_same : forall h hs,
  count_occ Nat.eq_dec (detachFirst h hs) h = pred (count_occ Nat.eq_dec hs h).
Proof.
  induction hs as [|x rest IH]; simpl.
  - reflexivity.
  - destruct (Nat.eqb_spec x h) as [E|N].
    + subst x. destruct (Nat.eq_dec h h) as [_|F]; [reflexivity | contradiction].
    + simpl. destruct (Nat.eq_dec x h) as [E|_]; [contradiction | assumption].
Qed.

Lemma count_detachFirst_other : forall h g hs, g <> h ->
  count_occ Nat.eq_dec (detachFirst h hs) g = count_occ Nat.eq_dec hs g.
Proof.
  induction hs as [|x rest IH]; simpl; intros Hne.
  - reflexivity.
  - destruct (Nat.eqb_spec x h) as [E|N].
    + subst x. destruct (Nat.eq_dec h g) as [E|_]; [congruence | reflexivity].
    + simpl. destruct (Nat.eq_dec x g); rewrite IH by assumption; reflexivity.
Qed.

End EventsFacts.

(* ------------------------------------------------------------------ *)
(** ** Programs that attach, detach and publish *)

Module BusFacts.

Import Events Bus EventsFacts.

Lemma Chan_eqb_spec : forall a b, reflect (a = b) (Chan_eqb a b).
Proof.
  intros [|] [|]; simpl; constructor; congruence.
Qed.

(** *** Subsequences *)

Lemma Subseq_refl {T : Type} : forall l : list T, Subseq l l.
Proof.
  induction l; constructor; assumption.
Qed.

Lemma Subseq_trans {T : Type} : forall l m n : list T,
  Subseq l m -> Subseq m n -> Subseq l n.
Proof.
  intros l m n Hlm Hmn. revert l Hlm.
  induction Hmn as [|m n x Hmn IH|m n x Hmn IH]; intros l Hlm.
  - assumption.
  - apply Subseq_skip. apply IH. assumption.
  - inversion Hlm; subst.
    + apply Subseq_skip. apply IH. assumption.
    + apply Subseq_keep. apply IH. assumption.
Qed.

Lemma Subseq_snoc {T : Type} : forall (l m : list T) x,
  Subseq l m -> Subseq (l ++ [x]) (m ++ [x]).
Proof.
  intros l m x H. induction H; simpl.
  - apply Subseq_keep, Subseq_nil.
  - apply Subseq_skip. assumption.
  - apply Subseq_keep. assumption.
Qed.

Lemma Subseq_detachFirst : forall h hs, Subseq (detachFirst h hs) hs.
Proof.
  induction hs as [|x rest IH]; simpl.
  - constructor.
  - destruct (Nat.eqb x h).
    + apply Subseq_skip, Subseq_refl.
    + apply Subseq_keep, IH.
Qed.

(** *** The record of executed calls *)

Lemma outstanding_snoc : forall c h hist e,
  outstanding c h (hist ++ [e]) =
  if isAttach c h e then S (outstanding c h hist)
  else if isDetach c h e then pred (outstanding c h hist)
  else outstanding c h hist.
Proof.
  intros. unfold outstanding. rewrite fold_left_app. reflexivity.
Qed.

Lemma attachments_snoc : forall c hist e,
  attachments c (hist ++ [e]) = attachments c hist ++ attachments c [e].
Proof.
  intros. unfold attachments. apply flat_map_app.
Qed.


(** *** [Attach] and [Detach] *)

Lemma subscribed_attach : forall c h p c0,
  subscribed c0 (attach c h p) =
  if Chan_eqb c c0 then subscribed c0 p ++ [h] else subscribed c0 p.
Proof.
  intros [|] h p [|]; reflexivity.
Qed.

Lemma subscribed_detach : forall c h p c0,
  subscribed c0 (detach c h p) =
  if Chan_eqb c c0 then detachFirst h (subscribed c0 p) else subscribed c0 p.
Proof.
  intros [|] h p [|]; reflexivity.
Qed.

Lemma history_attach : forall c h p, history (attach c h p) = history p ++ [Attached c h].
Proof.
  intros [|] h p; reflexivity.
Qed.

Lemma history_detach : forall c h p, history (detach c h p) = history p ++ [Detached c h].
Proof.
  intros [|] h p; reflexivity.
Qed.

Lemma consistent_fresh : consistent fresh.
Proof.
  split.
  - intros [|] h; reflexivity.
  - intros [|]; constructor.
Qed.

Lemma consistent_attach : forall c h p, consistent p -> consistent (attach c h p).
Proof.
  intros c h p [Hcount Horder]. split.
  - intros c0 g.
    rewrite subscribed_attach, history_attach, outstanding_snoc. simpl.
    destruct (Chan_eqb_spec c c0) as [Ec|Nc]; simpl.
    + rewrite count_occ_app, Hcount. simpl.
      destruct (Nat.eqb_spec h g) as [E|N];
        destruct (Nat.eq_dec h g) as [E'|N']; try contradiction; lia.
    + apply Hcount.
  - intros c0.
    rewrite subscribed_attach, history_attach, attachments_snoc. simpl.
    destruct (Chan_eqb_spec c c0) as [Ec|Nc]; simpl.
    + apply Subseq_snoc, Horder.
    + rewrite app_nil_r. apply Horder.
Qed.

Lemma consistent_detach : forall c h p, consistent p -> consistent (detach c h p).
Proof.
  intros c h p [Hcount Horder]. split.
  - intros c0 g.
    rewrite subscribed_detach, history_detach, outstanding_snoc. simpl.
    destruct (Chan_eqb_spec c c0) as [Ec|Nc]; simpl.
    + destruct (Nat.eqb_spec h g) as [E|N].
      * subst g. rewrite count_detachFirst_same, Hcount. reflexivity.
      * rewrite count_detachFirst_other by congruence. apply Hcount.
    + apply Hcount.
  - intros c0.
    rewrite subscribed_detach, history_detach, attachments_snoc. simpl.
    rewrite app_nil_r.
    destruct (Chan_eqb c c0).
    + eapply Subseq_trans; [apply Subseq_detachFirst | apply Horder].
    + apply Horder.
Qed.

(** *** Handler bodies, [Publish] and whole runs *)

Section Program.

Variable A : Type.

Variable b : Bodies A.

Lemma consistent_perform : forall (s : State A) a,
  consistent (self s) -> consistent (self (perform s a)).
Proof.
  intros s [c h|c h|f] H; simpl.
  - apply consistent_attach, H.
  - apply consistent_detach, H.
  - exact H.
Qed.

Lemma consistent_body : forall (acts : list (Action A)) (s : State A),
  consistent (self s) -> consistent (self (fold_left (@perform A) acts s)).
Proof.
  induction acts as [|a acts IH]; intros s H; simpl.
  - exact H.
  - apply IH, consistent_perform, H.
Qed.

Lemma consistent_publish : forall c v (s : State A),
  consistent (self s) -> consistent (self (fst (publish b c v s))).
Proof.
  intros [|] v s H; unfold publish.
  - apply (Publish_invariant (closures b) (fun s : State A => consistent (self s))); auto.
    intros h w Hw. simpl. apply consistent_body, Hw.
  - apply (IntPublish_invariant (closures b) (fun s : State A => consistent (self s))); auto.
    intros h w Hw. simpl. apply consistent_body, Hw.
Qed.

Lemma consistent_step : forall o (s : State A),
  consistent (self s) -> consistent (self (step b s o)).
Proof.
  intros [c h|c h| |v] s H.
  - exact (consistent_perform s (DoAttach c h) H).
  - exact (consistent_perform s (DoDetach c h) H).
  - exact (consistent_publish ChEvent 0%Z s H).
  - exact (consistent_publish ChIntEvent v s H).
Qed.

Lemma consistent_run : forall ops (s : State A),
  consistent (self s) -> consistent (self (run b ops s)).
Proof.
  unfold run. induction ops as [|o ops IH]; intros s H; simpl.
  - exact H.
  - apply IH, consistent_step, H.
Qed.

Lemma publish_callees : forall c v (s : State A),
  map callee (snd (publish b c v s)) = subscribed c (self s).
Proof.
  intros [|] v s; unfold publish.
  - exact (Publish_callees (closures b) (fun s : State A => publisher (self s)) s).
  - exact (IntPublish_callees (closures b) (fun s : State A => intPublisher (self s)) v s).
Qed.

End Program.

End BusFacts.

(* ------------------------------------------------------------------ *)
(** ** Order of invocation, detached handlers, duplicates *)

Module Publishing.

Import Events Bus EventsFacts BusFacts.

(** What a [Publish] of the modelled publishers calls.  After any
    sequence of [Attach], [Detach] and [Publish] calls on a fresh
    [EventPublisher] and a fresh [IntEventPublisher], with handlers that
    may themselves attach and detach, a [Publish] calls exactly the
    handlers subscribed when it starts: in their order of attachment,
    each as often as it has attachments that no [Detach] has taken
    back, with the published payload for the integer publisher; a
    handler none of whose attachments is outstanding when the call
    starts is not called. *)
Theorem publish_calls_subscribers_in_attachment_order :
  forall (A : Type) (b : Bodies A) (ops : list Op) (a0 : A) (c : Chan) (v : Z),
    let s := run b ops (mkWorld fresh a0) in
    let calls := snd (publish b c v s) in
    map callee calls = subscribed c (self s) /\
    Subseq (map callee calls) (attachments c (history (self s))) /\
    (forall h, count_occ Nat.eq_dec (map callee calls) h
               = outstanding c h (history (self s))) /\
    (forall h, outstanding c h (history (self s)) = 0 -> ~ In h (map callee calls)) /\
    Forall (fun k => k = match c with
                         | ChEvent => CallEvent (callee k) (seen k)
                         | ChIntEvent => CallIntEvent (callee k) v (seen k)
                         end) calls.
Proof.
  intros A b ops a0 c v s calls.
  assert (Hs : consistent (self s)).
  { apply consistent_run. exact consistent_fresh. }
  assert (Hcalls : map callee calls = subscribed c (self s)).
  { apply publish_callees. }
  destruct Hs as [Hcount Horder].
  split; [exact Hcalls|].
  split; [rewrite Hcalls; apply Horder|].
  split; [intros h; rewrite Hcalls; apply Hcount|].
  split.
  - intros h Hzero. rewrite Hcalls.
    apply (count_occ_not_In Nat.eq_dec). rewrite Hcount. exact Hzero.
  - subst calls. destruct c; unfold publish.
    + apply Publish_kind.
    + apply IntPublish_kind.
Qed.

(** The snapshot at work.  With the list copied when [Publish] starts,
    as the model has it, a detachment made by a handler does not reach
    the running [Publish]: handler 1 detaches handler 2, and the same
    [Publish] goes on to call handler 2, in the state handler 1 left, in
    which handler 2 is no longer subscribed.  [event.go] is not among the
    sources, so this is a property of the model. *)
Lemma detached_during_publish_still_called :
  let s := run detacher [OpAttach ChEvent 1; OpAttach ChEvent 2] (mkWorld fresh tt) in
  let s' := perform s (DoDetach ChEvent 2) in
  let calls := snd (publish detacher ChEvent 0%Z s) in
  calls = [CallEvent 1 s; CallEvent 2 s'] /\
  subscribed ChEvent (self s') = [1] /\
  history (self s') = [Attached ChEvent 1; Attached ChEvent 2; Detached ChEvent 2] /\
  subscribed ChEvent (self (fst (publish detacher ChEvent 0%Z s))) = [1] /\
  ~ calledWhileSubscribed ChEvent calls.
Proof.
  cbv zeta. split; [reflexivity|]. split; [reflexivity|].
  split; [reflexivity|]. split; [reflexivity|].
  intros H. unfold calledWhileSubscribed in H.
  vm_compute in H.
  inversion H as [|k ks H1 H2]; subst.
  inversion H2 as [|k' ks' H3 H4]; subst.
  destruct H3 as [E|[]]. discriminate E.
Qed.



End Publishing.

(* ------------------------------------------------------------------ *)
(** ** models.go: the two channels of a model base *)

Module ModelFacts.

Import Events EventsFacts Models.

(** C3.  [PublishItemsReset] and [PublishRowsReset] call the handlers
    subscribed to the reset channel and nothing else: every call is a
    call of a [func()] handler, none of a [func(int)] handler of the
    changed channel, and the code of the latter plays no part.
    Conversely [PublishItemChanged(i)] and [PublishRowChanged(i)] call
    the handlers of the changed channel with [i], and no [func()]
    handler of the reset channel. *)
Theorem publish_stays_on_its_channel :
  forall (A : Type),
    (forall (cl : Closures (ListWorld A)) (w : ListWorld A),
        (exists calls,
            published (ListModelBase_PublishItemsReset cl w) = [calls] /\
            map callee calls = handlers (ListModelBase_ItemsReset (self w)) /\
            Forall (fun k => isIntCall k = false) calls) /\
        (forall f, ListModelBase_PublishItemsReset (mkClosures (callEvent cl) f) w
                   = ListModelBase_PublishItemsReset cl w)) /\
    (forall (cl : Closures (ListWorld A)) (i : Z) (w : ListWorld A),
        (exists calls,
            published (ListModelBase_PublishItemChanged cl i w) = [calls] /\
            map callee calls = intHandlers (ListModelBase_ItemChanged (self w)) /\
            Forall (fun k => k = CallIntEvent (callee k) i (seen k)) calls) /\
        (forall f, ListModelBase_PublishItemChanged (mkClosures f (callIntEvent cl)) i w
                   = ListModelBase_PublishItemChanged cl i w)) /\
    (forall (cl : Closures (TableWorld A)) (w : TableWorld A),
        (exists calls,
            published (TableModelBase_PublishRowsReset cl w) = [calls] /\
            map callee calls = handlers (TableModelBase_RowsReset (self w)) /\
            Forall (fun k => isIntCall k = false) calls) /\
        (forall f, TableModelBase_PublishRowsReset (mkClosures (callEvent cl) f) w
                   = TableModelBase_PublishRowsReset cl w)) /\
    (forall (cl : Closures (TableWorld A)) (i : Z) (w : TableWorld A),
        (exists calls,
            published (TableModelBase_PublishRowChanged cl i w) = [calls] /\
            map callee calls = intHandlers (TableModelBase_RowChanged (self w)) /\
            Forall (fun k => k = CallIntEvent (callee k) i (seen k)) calls) /\
        (forall f, TableModelBase_PublishRowChanged (mkClosures f (callIntEvent cl)) i w
                   = TableModelBase_PublishRowChanged cl i w)).
Proof.
  intros A.
  assert (noInt : forall (W : Type) (l : list (Call W)),
             Forall (fun k => k = CallEvent (callee k) (seen k)) l ->
             Forall (fun k => isIntCall k = false) l).
  { intros W l H. eapply Forall_impl; [|exact H].
    intros k E. rewrite E. reflexivity. }
  repeat split.
  - eexists. split; [reflexivity|]. split.
    + apply (Publish_callees cl (fun w : ListWorld A => itemsResetPublisher (self w))).
    + apply noInt, Publish_kind.
  - eexists. split; [reflexivity|]. split.
    + apply (IntPublish_callees cl (fun w : ListWorld A => itemChangedPublisher (self w))).
    + apply IntPublish_kind.
  - eexists. split; [reflexivity|]. split.
    + apply (Publish_callees cl (fun w : TableWorld A => rowsResetPublisher (self w))).
    + apply noInt, Publish_kind.
  - eexists. split; [reflexivity|]. split.
    + apply (IntPublish_callees cl (fun w : TableWorld A => rowChangedPublisher (self w))).
    + apply IntPublish_kind.
Qed.

(** C6.  A fresh [ListModelBase] with one recorder on the item-changed
    channel and one on the items-reset channel, after
    [PublishItemChanged(5)] and then [PublishItemsReset()], has logged
    exactly [Changed 5] and then [Reset]. *)
Theorem recorder_log_round_trip :
  forall hChanged hReset : Handler,
    recordedRun hChanged hReset 5%Z = [Changed 5%Z; Reset].
Proof.
  intros hChanged hReset. reflexivity.
Qed.

End ModelFacts.

(* ------------------------------------------------------------------ *)
(** ** models.go: SorterBase *)

Module SorterFacts.

Import Events EventsFacts Models.

Section Sort.

Variable A : Type.

Variable cl : Closures (SorterWorld A).


(** The sort state is the requested one from the start of the publish
    to the return of [Sort]. *)
Lemma Sort_state : keepsSortState cl ->
  forall c o (w : SorterWorld A),
    (col (self (after (SorterBase_Sort cl c o w))) = c /\
     order (self (after (SorterBase_Sort cl c o w))) = o) /\
    forall calls, published (SorterBase_Sort cl c o w) = [calls] ->
      Forall (fun k => col (self (seen k)) = c /\ order (self (seen k)) = o) calls.
Proof.
  intros keep c o w.
  pose (w1 := mkWorld (mkSorterBase (changedPublisher (self w)) c o) (app w)).
  destruct (Publish_invariant cl
              (fun x : SorterWorld A => col (self x) = c /\ order (self x) = o)
              (fun x : SorterWorld A => changedPublisher (self x)) w1) as [Hafter Hseen].
  - intros h x [Hc Ho]. destruct (keep h x) as [Kc Ko]. split; congruence.
  - split; reflexivity.
  - split; [exact Hafter|].
    intros calls E. unfold SorterBase_Sort in E. cbn [published] in E.
    inversion E. exact Hseen.
Qed.

End Sort.


(** Counting handlers do not touch the sorter. *)
Lemma counting_keepsSortState : keepsSortState (counting SorterBase).
Proof.
  intros h w. split; reflexivity.
Defined.






End SorterFacts.

(* ------------------------------------------------------------------ *)
(** ** button.go and numberedit.go: the message bridge *)

Module WidgetFacts.

Import Events EventsFacts Widgets.

Section Button.

Variables WB A : Type.

Variable codes : Codes.

Variable base : HWND -> Z -> Z -> Z -> WB -> Z * WB.

Variable cl : Closures (ButtonWorld WB A).


End Button.

Section NumberEdit.

Variables WB LE A : Type.

Variable env : Native WB LE A.

Variable cl : Closures (NumberEditWorld WB LE A).



End NumberEdit.





End WidgetFacts.

(* ------------------------------------------------------------------ *)
(** ** The definitions at work *)

Module Examples.

Import Events Bus Models Widgets.

Example detachFirst_removes_one_match : detachFirst 2 [1; 2; 3; 2] = [1; 3; 2].
Proof. reflexivity. Qed.

Example detachFirst_absent_is_noop : detachFirst 9 [1; 2; 3] = [1; 2; 3].
Proof. reflexivity. Qed.

(** Attach 3, 1, 3, detach 3: the first 3 goes, and a publish calls 1
    and then the second 3. *)
Example publish_after_detach_of_duplicate :
  let s := run detacher
             [OpAttach ChEvent 3; OpAttach ChEvent 1; OpAttach ChEvent 3; OpDetach ChEvent 3]
             (mkWorld fresh tt) in
  map callee (snd (publish detacher ChEvent 0%Z s)) = [1; 3].
Proof. reflexivity. Qed.

(** Handler 1 detaches handler 2 during the first publish; the second
    publish no longer calls handler 2. *)
Example detached_handler_absent_from_next_publish :
  let s := run detacher [OpAttach ChEvent 1; OpAttach ChEvent 2; OpPublish]
             (mkWorld fresh tt) in
  map callee (snd (publish detacher ChEvent 0%Z s)) = [1].
Proof. reflexivity. Qed.

Example HIWORD_of_change : HIWORD (uint32 wParamChange) = 0x0300%Z.
Proof. reflexivity. Qed.

Example uint32_truncates : uint32 0x100000005%Z = 5%Z.
Proof. reflexivity. Qed.

(** A click reaches the three subscribers in one publish. *)
Example button_click :
  map (map callee) (published (buttonProc (WM_COMMAND win32) 0%Z)) = [[4; 5; 6]] /\
  app (after (buttonProc (WM_COMMAND win32) 0%Z)) = 3.
Proof. split; reflexivity. Qed.

(** A [WM_COMMAND] with another notification code, and another message,
    reach nobody. *)
Example button_other_messages :
  published (buttonProc (WM_COMMAND win32) 0x00050000%Z) = [] /\
  published (buttonProc (WM_SIZE win32) 0%Z) = [].
Proof. split; reflexivity. Qed.

Example unchanged_same_value : unchanged 1.5%float 1.5%float = true.
Proof. reflexivity. Qed.

Example unchanged_close_values :
  unchanged 1%float (PrimFloat.next_up 1%float) = false.
Proof. reflexivity. Qed.

(** A value that is not a number is never taken for unchanged. *)
Example unchanged_nan : unchanged nan nan = false.
Proof. reflexivity. Qed.

Example toyParseFloat_digits : toyParseFloat "42"%string = (42%float, None).
Proof. reflexivity. Qed.

(** A sorter fresh from its zero value reports column 0, ascending. *)
Example SorterBase_zero_state :
  SorterBase_SortedColumn SorterBase_zero = 0%Z /\
  SorterBase_SortOrder SorterBase_zero = SortAscending.
Proof. split; reflexivity. Qed.

End Examples.

(* ------------------------------------------------------------------ *)
(** ** metafile.go: the life of a metafile *)

Module MetafileFacts.

Import Metafiles.

Lemma wrap32_range : forall z, (-2147483648 <= wrap32 z < 2147483648)%Z.
Proof.
  intros z. unfold wrap32.
  pose proof (Z.mod_pos_bound (z + 2147483648) 4294967296) as H. lia.
Qed.

Lemma wrap32_small : forall z, (-2147483648 <= z < 2147483648)%Z -> wrap32 z = z.
Proof.
  intros z H. unfold wrap32. rewrite Z.mod_small; lia.
Qed.

Section Gdi.

Variable G : Type.

Variable gdi : Gdi G.

(** Reading the header makes one call and leaves the handles alone. *)
Lemma readSizeFromHeader_frame : forall mf (s : Sys G),
  let st := Metafile_readSizeFromHeader gdi mf s in
  hdc (metafile st) = hdc mf /\
  hemf (metafile st) = hemf mf /\
  calls (system st) = calls s ++ [GetEnhMetaFileHeader_ (hemf mf)] /\
  (value st <> None -> metafile st = mf).
Proof.
  intros mf s. unfold Metafile_readSizeFromHeader, native. cbn zeta. cbn [fst snd].
  destruct (fst (fst (GetEnhMetaFileHeader gdi (hemf mf) (os s))) =? 0)%Z; simpl.
  - repeat split.
  - repeat split. intros H. contradiction H. reflexivity.
Qed.

(** [ensureFinished], state by state. *)
Lemma ensureFinished_cases : forall mf (s : Sys G),
  let st := Metafile_ensureFinished gdi mf s in
  let h := fst (CloseEnhMetaFile gdi (hdc mf) (os s)) in
  (hdc mf = 0%Z -> metafile st = mf /\ system st = s) /\
  (hdc mf <> 0%Z -> h = 0%Z ->
     value st = Some (newError "CloseEnhMetaFile failed") /\
     metafile st = mkMetafile (hdc mf) 0%Z (size mf) /\
     calls (system st) = calls s ++ [CloseEnhMetaFile_ (hdc mf)]) /\
  (hdc mf <> 0%Z -> h <> 0%Z ->
     hdc (metafile st) = 0%Z /\ hemf (metafile st) = h /\
     calls (system st) =
       calls s ++ [CloseEnhMetaFile_ (hdc mf); GetEnhMetaFileHeader_ h]).
Proof.
  intros mf s. cbn zeta. unfold Metafile_ensureFinished.
  destruct (Z.eqb_spec (hdc mf) 0) as [Ed|Nd].
  - split; [|split]; try (intros; contradiction).
    intros _. destruct (hemf mf =? 0)%Z; split; reflexivity.
  - split; [intros; contradiction|].
    unfold native. cbn [fst snd].
    destruct (Z.eqb_spec (fst (CloseEnhMetaFile gdi (hdc mf) (os s))) 0) as [Eh|Nh].
    + split; [|intros; contradiction].
      intros _ _. cbn [value metafile system calls]. rewrite Eh. repeat split.
    + split; [intros; contradiction|].
      intros _ _.
      match goal with
      | |- context [Metafile_readSizeFromHeader gdi ?m ?t] =>
          destruct (readSizeFromHeader_frame m t) as [Hd [Hh [Hc _]]]
      end.
      cbn zeta in Hd, Hh, Hc. rewrite Hd, Hh, Hc. cbn [hdc hemf calls].
      rewrite <- app_assoc. repeat split.
Qed.

(** [Dispose], state by state. *)
Lemma Dispose_cases : forall mf (s : Sys G),
  let st := Metafile_Dispose gdi mf s in
  let h := fst (CloseEnhMetaFile gdi (hdc mf) (os s)) in
  (hdc mf = 0%Z -> hemf mf = 0%Z -> metafile st = mf /\ system st = s) /\
  (hdc mf = 0%Z -> hemf mf <> 0%Z ->
     metafile st = mkMetafile (hdc mf) 0%Z (size mf) /\
     calls (system st) = calls s ++ [DeleteEnhMetaFile_ (hemf mf)]) /\
  (hdc mf <> 0%Z -> h = 0%Z ->
     metafile st = mkMetafile (hdc mf) 0%Z (size mf) /\
     calls (system st) = calls s ++ [CloseEnhMetaFile_ (hdc mf)]) /\
  (hdc mf <> 0%Z -> h <> 0%Z ->
     hdc (metafile st) = 0%Z /\ hemf (metafile st) = 0%Z /\
     calls (system st) =
       calls s ++ [CloseEnhMetaFile_ (hdc mf); GetEnhMetaFileHeader_ h;
                   DeleteEnhMetaFile_ h]).
Proof.
  intros mf s. cbn zeta.
  destruct (ensureFinished_cases mf s) as [Hidle [Hfail Hdone]].
  cbn zeta in Hidle, Hfail, Hdone.
  unfold Metafile_Dispose. cbn zeta.
  repeat split.
  - destruct (Hidle H) as [Em Es]. rewrite Em, Es, H0. reflexivity.
  - destruct (Hidle H) as [Em Es]. rewrite Em, Es, H0. reflexivity.
  - destruct (Hidle H) as [Em Es]. rewrite Em, Es.
    apply Z.eqb_neq in H0. rewrite H0. reflexivity.
  - destruct (Hidle H) as [Em Es]. rewrite Em, Es.
    apply Z.eqb_neq in H0. rewrite H0. reflexivity.
  - destruct (Hfail H H0) as [_ [Em _]]. rewrite Em. reflexivity.
  - destruct (Hfail H H0) as [_ [Em Ec]]. rewrite Em. cbn [hemf Z.eqb system]. exact Ec.
  - destruct (Hdone H H0) as [Ed [Eh _]]. rewrite Eh.
    apply Z.eqb_neq in H0. rewrite H0. cbn [metafile hdc]. exact Ed.
  - destruct (Hdone H H0) as [_ [Eh _]]. rewrite Eh.
    apply Z.eqb_neq in H0. rewrite H0. reflexivity.
  - destruct (Hdone H H0) as [_ [Eh Ec]]. rewrite Eh.
    apply Z.eqb_neq in H0. rewrite H0. unfold native. cbn [system snd calls].
    rewrite Ec, <- app_assoc. reflexivity.
Qed.

(** After [Dispose] the metafile holds no handle. *)
Lemma Dispose_hemf : forall mf (s : Sys G),
  hemf (metafile (Metafile_Dispose gdi mf s)) = 0%Z.
Proof.
  intros mf s.
  destruct (Dispose_cases mf s) as [Hgone [Hheld [Hfail Hdone]]].
  cbn zeta in Hgone, Hheld, Hfail, Hdone.
  destruct (Z.eq_dec (hdc mf) 0) as [Ed|Nd].
  - destruct (Z.eq_dec (hemf mf) 0) as [Eh|Nh].
    + destruct (Hgone Ed Eh) as [Em _]. rewrite Em. exact Eh.
    + destruct (Hheld Ed Nh) as [Em _]. rewrite Em. reflexivity.
  - destruct (Z.eq_dec (fst (CloseEnhMetaFile gdi (hdc mf) (os s))) 0) as [Eh|Nh].
    + destruct (Hfail Nd Eh) as [Em _]. rewrite Em. reflexivity.
    + destruct (Hdone Nd Nh) as [_ [Em _]]. exact Em.
Qed.

End Gdi.

(** X1.  Whatever state a metafile is in and whatever GDI answers,
    [Dispose] leaves it without a metafile handle, calls
    [DeleteEnhMetaFile] at most once and never on the handle 0; on a
    metafile that is not being recorded it deletes the handle it holds,
    if any, and calls nothing else. *)
Theorem Dispose_releases_handle_once :
  forall (G : Type) (gdi : Gdi G) (mf : Metafile) (s : Sys G),
    let st := Metafile_Dispose gdi mf s in
    hemf (metafile st) = 0%Z /\
    exists new,
      calls (system st) = calls s ++ new /\
      List.length (filter isDelete new) <= 1 /\
      ~ In (DeleteEnhMetaFile_ 0%Z) new /\
      (hdc mf = 0%Z ->
       new = if (hemf mf =? 0)%Z then [] else [DeleteEnhMetaFile_ (hemf mf)]).
Proof.
  intros G gdi mf s st.
  destruct (Dispose_cases gdi mf s) as [Hgone [Hheld [Hfail Hdone]]].
  cbn zeta in Hgone, Hheld, Hfail, Hdone. fold st in Hgone, Hheld, Hfail, Hdone.
  destruct (Z.eq_dec (hdc mf) 0) as [Ed|Nd].
  - destruct (Z.eq_dec (hemf mf) 0) as [Eh|Nh].
    + destruct (Hgone Ed Eh) as [Em Es]. rewrite Em, Es. split; [exact Eh|].
      exists []. rewrite app_nil_r.
      repeat split; [simpl; lia | intros [] |].
      intros _. apply Z.eqb_eq in Eh. rewrite Eh. reflexivity.
    + destruct (Hheld Ed Nh) as [Em Ec]. rewrite Em, Ec. split; [reflexivity|].
      exists [DeleteEnhMetaFile_ (hemf mf)].
      repeat split; [simpl; lia | |].
      * intros [E|[]]. inversion E. congruence.
      * intros _. apply Z.eqb_neq in Nh. rewrite Nh. reflexivity.
  - destruct (Z.eq_dec (fst (CloseEnhMetaFile gdi (hdc mf) (os s))) 0) as [Eh|Nh].
    + destruct (Hfail Nd Eh) as [Em Ec]. rewrite Em, Ec. split; [reflexivity|].
      exists [CloseEnhMetaFile_ (hdc mf)].
      repeat split; [simpl; lia | | intros; contradiction].
      intros [E|[]]. discriminate E.
    + destruct (Hdone Nd Nh) as [_ [Em Ec]]. rewrite Em, Ec. split; [reflexivity|].
      eexists. split; [reflexivity|].
      repeat split; [simpl; lia | | intros; contradiction].
      intros [E|[E|[E|[]]]]; try discriminate E. inversion E. congruence.
Qed.

(** X2.  Once a [Dispose] has left the metafile without a device
    context, a second [Dispose] calls nothing and changes nothing. *)
Theorem Dispose_twice_is_once :
  forall (G : Type) (gdi : Gdi G) (mf : Metafile) (s : Sys G),
    let st := Metafile_Dispose gdi mf s in
    hdc (metafile st) = 0%Z ->
    metafile (Metafile_Dispose gdi (metafile st) (system st)) = metafile st /\
    system (Metafile_Dispose gdi (metafile st) (system st)) = system st.
Proof.
  intros G gdi mf s st Hd.
  pose proof (Dispose_hemf gdi mf s) as Hh. fold st in Hh.
  destruct (Dispose_cases gdi (metafile st) (system st)) as [Hgone _].
  exact (Hgone Hd Hh).
Qed.

(** A recording is closed and disposed of; disposing of it again does
    nothing more. *)
Lemma Dispose_twice_is_once_witness :
  let st := Metafile_Dispose (toyGdi true true) recording7 toySys in
  hdc (metafile st) = 0%Z /\
  calls (system st) =
    [CloseEnhMetaFile_ 7%Z; GetEnhMetaFileHeader_ 1%Z; DeleteEnhMetaFile_ 1%Z] /\
  metafile (Metafile_Dispose (toyGdi true true) (metafile st) (system st)) = metafile st /\
  system (Metafile_Dispose (toyGdi true true) (metafile st) (system st)) = system st.
Proof.
  cbv zeta. split; [reflexivity|]. split; [reflexivity|].
  apply (Dispose_twice_is_once (toyGdi true true) recording7 toySys). reflexivity.
Defined.

(** X3.  When [ensureFinished] returns [nil] the metafile is finished:
    it holds a metafile handle and no device context.  On a metafile
    without device context it calls nothing and changes nothing, and
    returns [nil] exactly when a handle is held.  A metafile that still
    has a device context afterwards is one whose [CloseEnhMetaFile]
    failed: the device context is kept and the handle is 0. *)
Theorem ensureFinished_nil_means_finished :
  forall (G : Type) (gdi : Gdi G) (mf : Metafile) (s : Sys G),
    let st := Metafile_ensureFinished gdi mf s in
    (value st = None -> hdc (metafile st) = 0%Z /\ hemf (metafile st) <> 0%Z) /\
    (hdc mf = 0%Z ->
     metafile st = mf /\ system st = s /\ (value st = None <-> hemf mf <> 0%Z)) /\
    (hdc (metafile st) <> 0%Z ->
     hdc (metafile st) = hdc mf /\ hemf (metafile st) = 0%Z /\
     value st = Some (newError "CloseEnhMetaFile failed")).
Proof.
  intros G gdi mf s st. subst st. unfold Metafile_ensureFinished.
  destruct (Z.eqb_spec (hdc mf) 0) as [Ed|Nd].
  - destruct (Z.eqb_spec (hemf mf) 0) as [Eh|Nh]; cbn [value metafile system].
    + split; [discriminate|]. split.
      * intros _. repeat split; [discriminate | intros N; contradiction].
      * intros N. contradiction.
    + split; [intros _; split; assumption|]. split.
      * intros _. repeat split. intros _. assumption.
      * intros N. contradiction.
  - unfold native. cbn [fst snd].
    destruct (Z.eqb_spec (fst (CloseEnhMetaFile gdi (hdc mf) (os s))) 0) as [Eh|Nh].
    + cbn [value metafile system hdc hemf].
      split; [discriminate|]. split; [intros E; contradiction|].
      intros _. repeat split. exact Eh.
    + match goal with
      | |- context [Metafile_readSizeFromHeader gdi ?m ?t] =>
          destruct (readSizeFromHeader_frame gdi m t) as [Hd [Hh _]]
      end.
      cbn zeta in Hd, Hh. cbn [hdc hemf] in Hd, Hh.
      split; [intros _; rewrite Hd, Hh; split; [reflexivity | exact Nh]|].
      split; [intros E; contradiction|].
      intros N. rewrite Hd in N. contradiction N. reflexivity.
Qed.

(** X4.  The failure to read the header is not remembered.  When a
    recording is closed but its header cannot be read, [ensureFinished]
    returns that error and leaves the size as it was; called again it
    returns [nil], calls nothing and still leaves the size as it was. *)
Theorem ensureFinished_header_error_not_sticky :
  forall (G : Type) (gdi : Gdi G) (mf : Metafile) (s : Sys G),
    hdc mf <> 0%Z ->
    fst (CloseEnhMetaFile gdi (hdc mf) (os s)) <> 0%Z ->
    fst (fst (GetEnhMetaFileHeader gdi
                (fst (CloseEnhMetaFile gdi (hdc mf) (os s)))
                (snd (CloseEnhMetaFile gdi (hdc mf) (os s))))) = 0%Z ->
    let st := Metafile_ensureFinished gdi mf s in
    let st2 := Metafile_ensureFinished gdi (metafile st) (system st) in
    value st = Some (newError "GetEnhMetaFileHeader failed") /\
    size (metafile st) = size mf /\
    value st2 = None /\ metafile st2 = metafile st /\ system st2 = system st.
Proof.
  intros G gdi mf s Nd Nh Hz st st2.
  assert (Est : st = mkStep (Some (newError "GetEnhMetaFileHeader failed"))
                  (mkMetafile 0%Z (fst (CloseEnhMetaFile gdi (hdc mf) (os s))) (size mf))
                  (system st)).
  { subst st. unfold Metafile_ensureFinished.
    apply Z.eqb_neq in Nd. rewrite Nd.
    unfold native. cbn [fst snd].
    apply Z.eqb_neq in Nh. rewrite Nh.
    unfold Metafile_readSizeFromHeader, native. cbn zeta. cbn [fst snd hemf os].
    rewrite Hz. reflexivity. }
  subst st2. rewrite Est. cbn [value metafile system size].
  unfold Metafile_ensureFinished. cbn [hdc hemf].
  apply Z.eqb_neq in Nh. rewrite Nh. repeat split.
Qed.

(** The device context 7 is closed into handle 1, whose header cannot be
    read. *)
Lemma ensureFinished_header_error_not_sticky_witness :
  let st := Metafile_ensureFinished (toyGdi true false) recording7 toySys in
  let st2 := Metafile_ensureFinished (toyGdi true false) (metafile st) (system st) in
  hdc recording7 <> 0%Z /\
  value st = Some (newError "GetEnhMetaFileHeader failed") /\
  metafile st = mkMetafile 0%Z 1%Z (mkSize 0 0) /\
  value st2 = None /\ system st2 = system st.
Proof.
  cbv zeta.
  assert (Nd : hdc recording7 <> 0%Z) by discriminate.
  assert (Nh : fst (CloseEnhMetaFile (toyGdi true false) (hdc recording7) (os toySys))
               <> 0%Z) by discriminate.
  pose proof (ensureFinished_header_error_not_sticky (toyGdi true false) recording7
                toySys Nd Nh eq_refl) as H.
  cbv zeta in H. destruct H as [Hv [_ [Hv2 [_ Hs2]]]].
  split; [exact Nd|]. split; [exact Hv|]. split; [reflexivity|].
  split; [exact Hv2 | exact Hs2].
Defined.

(** X5.  [readSizeFromHeader] leaves the metafile as it is when
    [GetEnhMetaFileHeader] returns 0.  Otherwise it stores as size the
    extent of the header's bounds, computed in 32 bits: the stored width
    and height lie in the 32-bit range, and equal right minus left and
    bottom minus top whenever those differences do. *)
Theorem readSizeFromHeader_extent :
  forall (G : Type) (gdi : Gdi G) (mf : Metafile) (s : Sys G) (n : Z) (b : RECT) (g : G),
    GetEnhMetaFileHeader gdi (hemf mf) (os s) = ((n, b), g) ->
    let st := Metafile_readSizeFromHeader gdi mf s in
    (n = 0%Z ->
     value st = Some (newError "GetEnhMetaFileHeader failed") /\ metafile st = mf) /\
    (n <> 0%Z ->
     value st = None /\
     hdc (metafile st) = hdc mf /\ hemf (metafile st) = hemf mf /\
     (-2147483648 <= Width (size (metafile st)) < 2147483648)%Z /\
     (-2147483648 <= Height (size (metafile st)) < 2147483648)%Z /\
     ((-2147483648 <= Right b - Left b < 2147483648)%Z ->
      Width (size (metafile st)) = (Right b - Left b)%Z) /\
     ((-2147483648 <= Bottom b - Top b < 2147483648)%Z ->
      Height (size (metafile st)) = (Bottom b - Top b)%Z)).
Proof.
  intros G gdi mf s n b g E st. subst st.
  unfold Metafile_readSizeFromHeader, native. cbn zeta. cbn [fst snd]. rewrite E.
  cbn [fst snd]. split.
  - intros Hn. subst n. cbn [Z.eqb value metafile]. split; reflexivity.
  - intros Hn. apply Z.eqb_neq in Hn. rewrite Hn.
    cbn [value metafile hdc hemf size Width Height].
    repeat split; try apply wrap32_range; intros Hr; apply wrap32_small; exact Hr.
Qed.

(** A header with the bounds (10, 20) to (650, 500) gives the size 640
    by 480. *)
Lemma readSizeFromHeader_extent_witness :
  let mf := mkMetafile 0%Z 1%Z (mkSize 0 0) in
  let st := Metafile_readSizeFromHeader (toyGdi true true) mf toySys in
  GetEnhMetaFileHeader (toyGdi true true) (hemf mf) (os toySys)
    = ((108%Z, mkRECT 10 20 650 500), 0) /\
  value st = None /\
  size (metafile st) = mkSize 640 480.
Proof.
  cbv zeta.
  pose proof (readSizeFromHeader_extent (toyGdi true true)
                (mkMetafile 0%Z 1%Z (mkSize 0 0)) toySys eq_refl) as H.
  cbv zeta in H. destruct H as [_ H].
  destruct H as [Hv _]; [discriminate|].
  split; [reflexivity|]. split; [exact Hv | reflexivity].
Defined.

(** X6.  [NewMetafileFromFile] returns either a metafile or an error,
    never both and never neither.  The metafile it returns is finished
    and holds the handle [GetEnhMetaFile] gave, and disposing of it
    deletes that handle and calls nothing else.  When [GetEnhMetaFile]
    fails nothing more is called; when the header cannot be read the
    error is returned after the two calls, without a call to
    [DeleteEnhMetaFile] for the handle just obtained. *)
Theorem NewMetafileFromFile_result :
  forall (G : Type) (gdi : Gdi G) (filePath : string) (s : Sys G),
    let r := NewMetafileFromFile gdi filePath s in
    let h := fst (GetEnhMetaFile gdi filePath (os s)) in
    match fst (fst r) with
    | Some mf =>
        snd (fst r) = None /\ h <> 0%Z /\ hdc mf = 0%Z /\ hemf mf = h /\
        calls (snd r) = calls s ++ [GetEnhMetaFile_ filePath; GetEnhMetaFileHeader_ h] /\
        calls (system (Metafile_Dispose gdi mf (snd r)))
          = calls (snd r) ++ [DeleteEnhMetaFile_ h]
    | None =>
        snd (fst r) <> None /\
        calls (snd r) =
          calls s ++ (if (h =? 0)%Z then [GetEnhMetaFile_ filePath]
                      else [GetEnhMetaFile_ filePath; GetEnhMetaFileHeader_ h])
    end.
Proof.
  intros G gdi filePath s r h. subst r h. unfold NewMetafileFromFile.
  unfold native. cbn [fst snd].
  destruct (Z.eqb_spec (fst (GetEnhMetaFile gdi filePath (os s))) 0) as [Eh|Nh].
  - cbn [fst snd calls]. split; [discriminate | reflexivity].
  - match goal with
    | |- context [Metafile_readSizeFromHeader gdi ?m ?t] =>
        destruct (readSizeFromHeader_frame gdi m t) as [Hd [Hh [Hc _]]];
        destruct (Metafile_readSizeFromHeader gdi m t) as [v m' t']
    end.
    cbn zeta in Hd, Hh, Hc. cbn [metafile system hdc hemf calls] in Hd, Hh, Hc.
    cbn [value metafile system].
    destruct v as [err|]; cbn [fst snd].
    + split; [discriminate|]. rewrite Hc, <- app_assoc. reflexivity.
    + split; [reflexivity|]. split; [exact Nh|]. split; [exact Hd|].
      split; [exact Hh|]. split; [rewrite Hc, <- app_assoc; reflexivity|].
      destruct (Dispose_cases gdi m' t') as [_ [Hheld _]]. cbn zeta in Hheld.
      destruct Hheld as [_ Hcalls]; [exact Hd | rewrite Hh; exact Nh |].
      rewrite Hcalls, Hh. reflexivity.
Qed.

(** X7.  [NewMetafile] returns an error and no metafile when
    [CreateEnhMetaFile] gives 0; otherwise a metafile that is being
    recorded: the device context obtained, no handle, size zero.
    Disposing of that metafile closes the device context and, when the
    close gives a handle, deletes it, whether or not the header could be
    read; when the close fails the device context is kept. *)
Theorem NewMetafile_then_Dispose :
  forall (G : Type) (gdi : Gdi G) (reference : HDC) (s : Sys G),
    let r := NewMetafile gdi reference s in
    let d := fst (CreateEnhMetaFile gdi reference (os s)) in
    match fst (fst r) with
    | None =>
        d = 0%Z /\ snd (fst r) = Some (newError "CreateEnhMetaFile failed") /\
        calls (snd r) = calls s ++ [CreateEnhMetaFile_ reference]
    | Some mf =>
        snd (fst r) = None /\ d <> 0%Z /\ mf = mkMetafile d 0%Z (mkSize 0 0) /\
        calls (snd r) = calls s ++ [CreateEnhMetaFile_ reference] /\
        let st := Metafile_Dispose gdi mf (snd r) in
        let h := fst (CloseEnhMetaFile gdi d (os (snd r))) in
        hemf (metafile st) = 0%Z /\
        hdc (metafile st) = (if (h =? 0)%Z then d else 0%Z) /\
        calls (system st) =
          calls (snd r) ++
          (if (h =? 0)%Z then [CloseEnhMetaFile_ d]
           else [CloseEnhMetaFile_ d; GetEnhMetaFileHeader_ h; DeleteEnhMetaFile_ h])
    end.
Proof.
  intros G gdi reference s r d. subst r d. unfold NewMetafile, native.
  cbn [fst snd].
  destruct (Z.eqb_spec (fst (CreateEnhMetaFile gdi reference (os s))) 0) as [Ed|Nd].
  - cbn [fst snd calls]. repeat split. exact Ed.
  - cbn [fst snd calls].
    split; [reflexivity|]. split; [exact Nd|]. split; [reflexivity|].
    split; [reflexivity|]. cbn zeta.
    match goal with
    | |- context [Metafile_Dispose gdi ?m ?t] =>
        destruct (Dispose_cases gdi m t) as [_ [_ [Hfail Hdone]]];
        pose proof (Dispose_hemf gdi m t) as Hzero
    end.
    cbn zeta in Hfail, Hdone. cbn [hdc] in Hfail, Hdone.
    split; [exact Hzero|].
    match goal with
    | |- context [(?x =? 0)%Z] => destruct (Z.eqb_spec x 0) as [Eh|Nh]
    end.
    + destruct (Hfail Nd Eh) as [Em Ec]. rewrite Em, Ec. split; reflexivity.
    + destruct (Hdone Nd Nh) as [Ed' [_ Ec]]. rewrite Ed', Ec. split; reflexivity.
Qed.

(** X8.  [Save] does not use up the metafile: it leaves it as it is,
    returns an error exactly when [CopyEnhMetaFile] gives 0, and deletes
    the handle of the copy only.  A finished metafile disposed of after
    a [Save] has its own handle deleted, by [Dispose] and not before. *)
Theorem Save_then_Dispose :
  forall (G : Type) (gdi : Gdi G) (mf : Metafile) (filePath : string) (s : Sys G),
    let sv := Metafile_Save gdi mf filePath s in
    let c := fst (CopyEnhMetaFile gdi (hemf mf) filePath (os s)) in
    metafile sv = mf /\
    (value sv = None <-> c <> 0%Z) /\
    calls (system sv) =
      calls s ++ (if (c =? 0)%Z then [CopyEnhMetaFile_ (hemf mf) filePath]
                  else [CopyEnhMetaFile_ (hemf mf) filePath; DeleteEnhMetaFile_ c]) /\
    (hdc mf = 0%Z -> hemf mf <> 0%Z ->
     calls (system (Metafile_Dispose gdi (metafile sv) (system sv)))
       = calls (system sv) ++ [DeleteEnhMetaFile_ (hemf mf)]).
Proof.
  intros G gdi mf filePath s sv c.
  assert (Em : metafile sv = mf).
  { subst sv. unfold Metafile_Save, native. cbn [fst snd].
    destruct (fst (CopyEnhMetaFile gdi (hemf mf) filePath (os s)) =? 0)%Z; reflexivity. }
  split; [exact Em|].
  split; [|split].
  - subst sv c. unfold Metafile_Save, native. cbn [fst snd].
    destruct (Z.eqb_spec (fst (CopyEnhMetaFile gdi (hemf mf) filePath (os s))) 0)
      as [E|N]; cbn [value]; split; intros H; try reflexivity; try assumption.
    + discriminate H.
    + contradiction.
  - subst sv c. unfold Metafile_Save, native. cbn [fst snd].
    destruct (fst (CopyEnhMetaFile gdi (hemf mf) filePath (os s)) =? 0)%Z;
      cbn [system calls]; [reflexivity|].
    rewrite <- app_assoc. reflexivity.
  - intros Hd Hh. rewrite Em.
    destruct (Dispose_cases gdi mf (system sv)) as [_ [Hheld _]].
    cbn zeta in Hheld. apply (Hheld Hd Hh).
Qed.

(** A finished metafile with handle 3 is saved and then disposed of:
    the copy gets handle 1, which [Save] deletes; handle 3 is deleted by
    [Dispose]. *)
Lemma Save_then_Dispose_witness :
  let mf := mkMetafile 0%Z 3%Z (mkSize 640 480) in
  let sv := Metafile_Save (toyGdi true true) mf "out.emf"%string toySys in
  hdc mf = 0%Z /\ hemf mf <> 0%Z /\
  value sv = None /\
  calls (system (Metafile_Dispose (toyGdi true true) (metafile sv) (system sv)))
    = [CopyEnhMetaFile_ 3%Z "out.emf"%string; DeleteEnhMetaFile_ 1%Z;
       DeleteEnhMetaFile_ 3%Z].
Proof.
  cbv zeta.
  assert (Hh : hemf (mkMetafile 0%Z 3%Z (mkSize 640 480)) <> 0%Z) by discriminate.
  pose proof (Save_then_Dispose (toyGdi true true) (mkMetafile 0%Z 3%Z (mkSize 640 480))
                "out.emf"%string toySys) as H.
  cbv zeta in H. destruct H as [_ [_ [_ H]]].
  split; [reflexivity|]. split; [exact Hh|]. split; [reflexivity|].
  rewrite (H eq_refl Hh). reflexivity.
Defined.

(** X9.  A recording that is finished and then drawn is played at the
    extent of its header: when the close gives a handle and the header
    is read, with bounds whose extent fits 32 bits, [draw] at a location
    makes one [PlayEnhMetaFile] call, for that handle and the rectangle
    at the location whose width and height are right minus left and
    bottom minus top; it leaves the metafile as it is and returns an
    error exactly when the call answers false. *)
Theorem draw_plays_header_extent :
  forall (G : Type) (gdi : Gdi G) (toRECT : Widgets.Rectangle -> RECT) (mf : Metafile)
         (s : Sys G) (target : HDC) (location : Point) (n : Z) (b : RECT) (g : G),
    hdc mf <> 0%Z ->
    fst (CloseEnhMetaFile gdi (hdc mf) (os s)) <> 0%Z ->
    GetEnhMetaFileHeader gdi (fst (CloseEnhMetaFile gdi (hdc mf) (os s)))
      (snd (CloseEnhMetaFile gdi (hdc mf) (os s))) = ((n, b), g) ->
    n <> 0%Z ->
    (-2147483648 <= Right b - Left b < 2147483648)%Z ->
    (-2147483648 <= Bottom b - Top b < 2147483648)%Z ->
    let c := fst (CloseEnhMetaFile gdi (hdc mf) (os s)) in
    let rc := toRECT (Widgets.mkRectangle (X location) (Y location)
                        (Right b - Left b) (Bottom b - Top b)) in
    let st := Metafile_ensureFinished gdi mf s in
    let dr := Metafile_draw gdi toRECT (metafile st) target location (system st) in
    value st = None /\
    metafile dr = metafile st /\
    calls (system dr) =
      calls s ++ [CloseEnhMetaFile_ (hdc mf); GetEnhMetaFileHeader_ c;
                  PlayEnhMetaFile_ target c rc] /\
    (value dr = None <-> fst (PlayEnhMetaFile gdi target c rc g) = true).
Proof.
  intros G gdi toRECT mf s target location n b g Nd Nc Eh Nn Hw Hh c rc st dr.
  assert (Est : st = mkStep None
                  (mkMetafile 0%Z c (mkSize (Right b - Left b) (Bottom b - Top b)))
                  (mkSys g (calls s ++ [CloseEnhMetaFile_ (hdc mf);
                                        GetEnhMetaFileHeader_ c]))).
  { subst st c. unfold Metafile_ensureFinished.
    apply Z.eqb_neq in Nd. rewrite Nd.
    unfold native. cbn [fst snd].
    apply Z.eqb_neq in Nc. rewrite Nc.
    unfold Metafile_readSizeFromHeader, native. cbn zeta. cbn [fst snd hemf hdc os calls].
    rewrite Eh. cbn [fst snd].
    apply Z.eqb_neq in Nn. rewrite Nn.
    rewrite (wrap32_small Hw), (wrap32_small Hh), <- app_assoc. reflexivity. }
  subst dr. rewrite Est. cbn [value metafile system].
  unfold Metafile_draw, Metafile_drawStretched, native.
  cbn [fst snd size Width Height hemf os calls]. fold rc.
  destruct (fst (PlayEnhMetaFile gdi target c rc g)); cbn [value metafile system calls].
  - repeat split. rewrite <- app_assoc. reflexivity.
  - repeat split; try discriminate. rewrite <- app_assoc. reflexivity.
Qed.

(** The recording in device context 7 is finished into handle 1 with the
    size 640 by 480 and drawn at (5, 6) into device context 9. *)
Lemma draw_plays_header_extent_witness :
  let st := Metafile_ensureFinished (toyGdi true true) recording7 toySys in
  let dr := Metafile_draw (toyGdi true true) toyToRECT (metafile st) 9%Z
              (mkPoint 5 6) (system st) in
  hdc recording7 <> 0%Z /\
  value dr = None /\
  calls (system dr) =
    [CloseEnhMetaFile_ 7%Z; GetEnhMetaFileHeader_ 1%Z;
     PlayEnhMetaFile_ 9%Z 1%Z (mkRECT 5 6 645 486)].
Proof.
  cbv zeta.
  assert (Nd : hdc recording7 <> 0%Z) by discriminate.
  assert (Nc : fst (CloseEnhMetaFile (toyGdi true true) (hdc recording7) (os toySys))
               <> 0%Z) by discriminate.
  assert (Nn : 108%Z <> 0%Z) by discriminate.
  pose proof (draw_plays_header_extent (toyGdi true true) toyToRECT recording7 toySys
                9%Z (mkPoint 5 6) Nd Nc eq_refl Nn) as H.
  cbv zeta in H. destruct H as [_ [_ [Hc Hv]]]; [simpl; lia | simpl; lia |].
  split; [exact Nd|]. split; [apply Hv; reflexivity | exact Hc].
Defined.

End MetafileFacts.

(* ------------------------------------------------------------------ *)
(** ** button.go: text and check state *)

Module ButtonFacts.

Import Events Widgets ButtonOps.

(** X10.  [SetText] with the text the button already shows returns [nil]
    without writing the text or laying out the parent.  When writing
    the text fails, that error is returned and the parent is not laid
    out.  On a native button that keeps its text, a [SetText] that
    returns [nil] leaves [Text()] equal to the value given. *)
Theorem SetText_then_Text :
  forall (WB A : Type) (env : ButtonNative WB A),
    keepsText env ->
    forall (value : string) (w : ButtonWorld WB A),
      (value = Button_Text env w -> Button_SetText env value w = (None, w)) /\
      (forall err w1,
          value <> Button_Text env w ->
          setWidgetText env (Button_hWnd env w) value w = (Some err, w1) ->
          Button_SetText env value w = (Some err, w1)) /\
      (fst (Button_SetText env value w) = None ->
       Button_Text env (snd (Button_SetText env value w)) = value).
Proof.
  intros WB A env [Hset Hlay] value w. unfold Button_SetText.
  destruct (String.eqb_spec value (Button_Text env w)) as [E|N].
  - split; [reflexivity|]. split; [intros; contradiction|].
    intros _. symmetry. exact E.
  - split; [intros; contradiction|]. split.
    + intros err w1 _ Ew. rewrite Ew. reflexivity.
    + destruct (setWidgetText env (Button_hWnd env w) value w) as [[err|] w1] eqn:Ew;
        cbn [fst snd]; [discriminate|].
      intros _. destruct (Hset _ _ _ _ Ew) as [Ht Hh].
      unfold Button_Text.
      destruct (Hlay (Button_hWnd env (snd (WidgetBase_updateParentLayout env w1))) w1)
        as [Ht' Hh'].
      rewrite Ht', Hh', Hh. exact Ht.
Qed.

Lemma toyButton_keepsText : forall bad, keepsText (toyButtonNative bad).
Proof.
  intros bad. split.
  - intros h v w w' E. cbn in E.
    destruct (String.eqb v bad); [discriminate|].
    inversion E. split; reflexivity.
  - intros h w. split; reflexivity.
Defined.

(** The button showing OK is given the text Cancel. *)
Lemma SetText_then_Text_witness :
  keepsText (toyButtonNative "bad"%string) /\
  Button_SetText (toyButtonNative "bad"%string) "OK"%string toyButton = (None, toyButton) /\
  fst (Button_SetText (toyButtonNative "bad"%string) "bad"%string toyButton)
    = Some "SetWindowText failed"%string /\
  Button_Text (toyButtonNative "bad"%string)
    (snd (Button_SetText (toyButtonNative "bad"%string) "Cancel"%string toyButton))
    = "Cancel"%string.
Proof.
  pose proof (SetText_then_Text (toyButton_keepsText "bad"%string) "Cancel"%string toyButton)
    as H.
  destruct H as [_ [_ H]].
  split; [exact (toyButton_keepsText "bad"%string)|].
  split; [reflexivity|]. split; [reflexivity|].
  apply H. reflexivity.
Defined.

(** X11.  On a native button that reports the check state last set, and
    with [BST_CHECKED] different from [BST_UNCHECKED], [Checked()] after
    [SetChecked(value)] returns [value]. *)
Theorem SetChecked_then_Checked :
  forall (WB A : Type) (env : ButtonNative WB A),
    keepsCheck env ->
    BST_CHECKED env <> BST_UNCHECKED env ->
    forall (value : bool) (w : ButtonWorld WB A),
      fst (Button_Checked env (Button_SetChecked env value w)) = value.
Proof.
  intros WB A env Hk Hne value w.
  unfold Button_Checked, Button_SetChecked. cbn [fst]. rewrite Hk.
  destruct value.
  - apply Z.eqb_refl.
  - apply Z.eqb_neq. congruence.
Qed.

Lemma SetChecked_then_Checked_witness :
  keepsCheck (toyButtonNative "bad"%string) /\
  fst (Button_Checked (toyButtonNative "bad"%string)
         (Button_SetChecked (toyButtonNative "bad"%string) true toyButton)) = true /\
  fst (Button_Checked (toyButtonNative "bad"%string)
         (Button_SetChecked (toyButtonNative "bad"%string) false toyButton)) = false.
Proof.
  assert (Hk : keepsCheck (toyButtonNative "bad"%string)).
  { intros chk w. reflexivity. }
  assert (Hne : BST_CHECKED (toyButtonNative "bad"%string)
                <> BST_UNCHECKED (toyButtonNative "bad"%string)) by discriminate.
  split; [exact Hk|].
  split; apply (SetChecked_then_Checked Hk Hne).
Defined.

End ButtonFacts.

(* ------------------------------------------------------------------ *)
(** ** numberedit.go: the guard of the change notification *)

Module NumberEditFacts.

Import Events EventsFacts Widgets.

Lemma SmallestNonzeroFloat64_spec :
  Prim2SF SmallestNonzeroFloat64 = S754_finite false 1 (-1074).
Proof.
  vm_compute. reflexivity.
Qed.

(** The exponent of a finite binary64 number is at least -1074. *)
Lemma finite_exponent_bound : forall s m e,
  FloatAxioms.valid_binary (S754_finite s m e) = true -> (-1074 <= e)%Z.
Proof.
  intros s m e H. simpl in H. unfold bounded, canonical_mantissa in H.
  apply andb_prop in H. destruct H as [H _].
  apply Z.eqb_eq in H. unfold fexp in H.
  change (SpecFloat.emin prec emax) with (-1074)%Z in H. lia.
Qed.

(** No number lies strictly between zero and the smallest nonzero one. *)
Lemma below_smallest_is_zero : forall d : float,
  PrimFloat.ltb (PrimFloat.abs d) SmallestNonzeroFloat64 = PrimFloat.eqb d 0%float.
Proof.
  intros d.
  rewrite ltb_spec, FloatAxioms.eqb_spec, abs_spec, SmallestNonzeroFloat64_spec.
  change (Prim2SF 0%float) with (S754_zero false).
  pose proof (Prim2SF_valid d) as V.
  destruct (Prim2SF d) as [s|s| |s m e].
  - reflexivity.
  - destruct s; reflexivity.
  - reflexivity.
  - apply finite_exponent_bound in V.
    assert (E : SFeqb (S754_finite s m e) (S754_zero false) = false)
      by (destruct s; reflexivity).
    rewrite E. unfold SFltb, SFabs, SFcompare.
    destruct (Z.compare_spec e (-1074)) as [Ee|L|Gt].
    + destruct m; reflexivity.
    + lia.
    + reflexivity.
Qed.

(** X12.  The guard of the change notification,
    [math.Abs(value-ne.oldValue) < math.SmallestNonzeroFloat64], holds
    exactly when [value - ne.oldValue] compares equal to zero: no
    difference other than zero, however small, is suppressed, and a
    difference that is not a number never is. *)
Theorem unchanged_iff_difference_zero :
  forall value old : float,
    unchanged value old = PrimFloat.eqb (PrimFloat.sub value old) 0%float.
Proof.
  intros value old. unfold unchanged. apply below_smallest_is_zero.
Qed.

Section WndProc.

Variables WB LE A : Type.

Variable env : Native WB LE A.

Variable cl : Closures (NumberEditWorld WB LE A).

(** A publish whose handlers leave the widget alone leaves it alone. *)
Lemma Publish_keeps_self : forall (w : NumberEditWorld WB LE A),
  (forall h x, self (callEvent cl h x) = self x) ->
  self (fst (EventPublisher_Publish cl (fun x => valueChangedPublisher (self x)) w))
  = self w.
Proof.
  intros w keep.
  destruct (Publish_invariant cl
              (fun x : NumberEditWorld WB LE A => self x = self w)
              (fun x : NumberEditWorld WB LE A => valueChangedPublisher (self x)) w)
    as [H _].
  - intros h x Hx. rewrite keep. exact Hx.
  - reflexivity.
  - exact H.
Qed.

End WndProc.

(** X13.  A repeated change notification is not published again.  With
    the up-down control in place, handlers that leave the widget alone
    and a parsed value [v] for which [v - v] is zero (every finite
    value), the same [EN_CHANGE] processed a second time publishes
    nothing, whether or not the first time did. *)
Theorem repeated_EN_CHANGE_publishes_nothing :
  forall (WB LE A : Type) (env : Native WB LE A) (cl : Closures (NumberEditWorld WB LE A))
         (hwnd wParam lParam : Z) (w : NumberEditWorld WB LE A),
    hWndUpDown (self w) <> 0%Z ->
    HIWORD (uint32 wParam) = EN_CHANGE (codes env) ->
    (forall h x, self (callEvent cl h x) = self x) ->
    PrimFloat.eqb (PrimFloat.sub (NumberEdit_Value env (self w))
                     (NumberEdit_Value env (self w))) 0%float = true ->
    let first := NumberEdit_WndProc env cl hwnd (WM_COMMAND (codes env)) wParam lParam w in
    let second :=
      NumberEdit_WndProc env cl hwnd (WM_COMMAND (codes env)) wParam lParam (after first) in
    published second = [] /\
    oldValue (self (after second)) = oldValue (self (after first)).
Proof.
  intros WB LE A env cl hwnd wParam lParam w Hup Hcode keep Hfin first second.
  set (v := NumberEdit_Value env (self w)) in *.
  assert (Hfirst : exists b o,
             self (after first)
             = mkNumberEdit b (edit (self w)) (hWndUpDown (self w)) (bindingMember (self w))
                 (increment (self w)) o (valueChangedPublisher (self w)) /\
             unchanged v o = true).
  { subst first. unfold NumberEdit_WndProc.
    apply Z.eqb_neq in Hup. rewrite Hup, Z.eqb_refl.
    apply Z.eqb_eq in Hcode. rewrite Hcode.
    unfold onChange. fold v.
    destruct (unchanged v (oldValue (self w))) eqn:Hg; cbn [after].
    - eexists. exists (oldValue (self w)). split; [reflexivity | exact Hg].
    - unfold setWidgetBase. cbn [self].
      rewrite (Publish_keeps_self cl (setOldValue v w) keep). cbn [self setOldValue].
      eexists. exists v. split; [reflexivity|].
      unfold unchanged. rewrite below_smallest_is_zero. exact Hfin. }
  destruct Hfirst as [b [o [Eself Hg]]].
  subst second. unfold NumberEdit_WndProc. rewrite Eself. cbn [hWndUpDown].
  apply Z.eqb_neq in Hup. rewrite Hup, Z.eqb_refl.
  apply Z.eqb_eq in Hcode. rewrite Hcode.
  unfold onChange, NumberEdit_Value. rewrite Eself. cbn [edit oldValue].
  fold (NumberEdit_Value env (self w)). fold v. rewrite Hg.
  cbn [published after]. split; [reflexivity|].
  unfold setWidgetBase. rewrite Eself. reflexivity.
Qed.

(** The text 5 against a last observed value of 0: the first
    notification is published to both subscribers, the second to nobody. *)
Lemma repeated_EN_CHANGE_publishes_nothing_witness :
  let w := numberEditSample 7%Z in
  let first := NumberEdit_WndProc (toyNative nat) (counting _) 0%Z
                 (WM_COMMAND win32) wParamChange 0%Z w in
  let second := NumberEdit_WndProc (toyNative nat) (counting _) 0%Z
                  (WM_COMMAND win32) wParamChange 0%Z (after first) in
  hWndUpDown (self w) <> 0%Z /\
  map (map callee) (published first) = [[1; 2]] /\
  published second = [] /\
  app (after second) = 2.
Proof.
  cbv zeta.
  assert (Hup : hWndUpDown (self (numberEditSample 7%Z)) <> 0%Z) by discriminate.
  assert (Hcode : HIWORD (uint32 wParamChange) = EN_CHANGE (codes (toyNative nat)))
    by reflexivity.
  pose proof (repeated_EN_CHANGE_publishes_nothing (toyNative nat)
                (counting (NumberEdit unit string)) 0%Z wParamChange 0%Z
                (numberEditSample 7%Z) Hup Hcode (fun h x => eq_refl) eq_refl) as H.
  cbv zeta in H. destruct H as [Hp _].
  split; [exact Hup|]. split; [reflexivity|]. split; [exact Hp | reflexivity].
Defined.

(** X14.  [NumberEdit.WndProc] acts on three kinds of message only, and
    only once the up-down control exists.  While [hWndUpDown] is 0, and
    for every message that is not a [WM_COMMAND] with [EN_CHANGE], a
    [WM_NOTIFY] with [UDN_DELTAPOS], a [WM_SIZE] or a [WM_SIZING], it
    only passes the message to [WidgetBase.WndProc]: nothing is
    published, no text or bounds are set, no message is sent, and
    nothing but the widget base changes. *)
Theorem WndProc_only_forwards :
  forall (WB LE A : Type) (env : Native WB LE A) (cl : Closures (NumberEditWorld WB LE A))
         (hwnd msg wParam lParam : Z) (w : NumberEditWorld WB LE A),
    hWndUpDown (self w) = 0%Z \/
    (msg = WM_COMMAND (codes env) /\ HIWORD (uint32 wParam) <> EN_CHANGE (codes env)) \/
    (msg <> WM_COMMAND (codes env) /\ msg = WM_NOTIFY (codes env) /\
     NMHDR_Code env lParam <> UDN_DELTAPOS (codes env)) \/
    (msg <> WM_COMMAND (codes env) /\ msg <> WM_NOTIFY (codes env) /\
     msg <> WM_SIZE (codes env) /\ msg <> WM_SIZING (codes env)) ->
    let r := WidgetBase_WndProc env hwnd msg wParam lParam (NumberEdit_WidgetBase (self w)) in
    NumberEdit_WndProc env cl hwnd msg wParam lParam w
    = mkOutcome (fst r) (setWidgetBase (snd r) w) [].
Proof.
  intros WB LE A env cl hwnd msg wParam lParam w H r. subst r.
  unfold NumberEdit_WndProc.
  destruct (Z.eqb_spec (hWndUpDown (self w)) 0) as [Eu|Nu]; [reflexivity|].
  destruct H as [H|[[Em Nh]|[[Nm [Em Nc]]|[Nc [Nn [Ns Nz]]]]]].
  - contradiction.
  - apply Z.eqb_eq in Em. rewrite Em. apply Z.eqb_neq in Nh. rewrite Nh. reflexivity.
  - apply Z.eqb_neq in Nm. rewrite Nm. apply Z.eqb_eq in Em. rewrite Em.
    apply Z.eqb_neq in Nc. rewrite Nc. reflexivity.
  - apply Z.eqb_neq in Nc, Nn, Ns, Nz. rewrite Nc, Nn, Ns, Nz. reflexivity.
Qed.

(** A [WM_SIZE] before the up-down control exists, and a [WM_COMMAND]
    that is not a change notification afterwards. *)
Lemma WndProc_only_forwards_witness :
  published (NumberEdit_WndProc (toyNative nat) (counting _) 0%Z
               (WM_SIZE win32) 0%Z 0%Z (numberEditSample 0%Z)) = [] /\
  after (NumberEdit_WndProc (toyNative nat) (counting _) 0%Z
           (WM_COMMAND win32) 0%Z 0%Z (numberEditSample 7%Z)) = numberEditSample 7%Z.
Proof.
  split.
  - rewrite (@WndProc_only_forwards unit string nat (toyNative nat)
               (counting (NumberEdit unit string))
               0%Z (WM_SIZE win32) 0%Z 0%Z (numberEditSample 0%Z)).
    + reflexivity.
    + left. reflexivity.
  - rewrite (@WndProc_only_forwards unit string nat (toyNative nat)
               (counting (NumberEdit unit string))
               0%Z (WM_COMMAND win32) 0%Z 0%Z (numberEditSample 7%Z)).
    + reflexivity.
    + right. left. split; [reflexivity | discriminate].
Defined.

End NumberEditFacts.

(* ------------------------------------------------------------------ *)
(** ** models.go: what subscribers receive *)

Module ModelRunFacts.

Import Events EventsFacts Models ModelRuns SorterFacts.

(** Handlers that each append the same entry and leave the model alone
    append it once per handler of the snapshot. *)
Lemma dispatch_appends {M : Type} (e : Entry)
    (invoke : Handler -> World M (list Entry) -> World M (list Entry))
    (note : Handler -> World M (list Entry) -> Call (World M (list Entry))) :
  (forall h w, invoke h w = mkWorld (self w) (app w ++ [e])) ->
  forall snapshot w,
    fst (dispatch invoke note snapshot w)
    = mkWorld (self w) (app w ++ repeat e (List.length snapshot)).
Proof.
  intros Hinv. induction snapshot as [|h rest IH]; intros w; simpl.
  - rewrite app_nil_r. destruct w; reflexivity.
  - rewrite IH, Hinv. cbn [self app]. rewrite <- app_assoc. reflexivity.
Qed.

(** X15.  With recording handlers, a publish of a model base writes one
    entry per subscriber of its channel and nothing else:
    [PublishItemChanged(i)] and [PublishRowChanged(i)] append
    [Changed i] as many times as the changed channel has subscribers,
    [PublishItemsReset] and [PublishRowsReset] append [Reset] as many
    times as the reset channel has; with no subscriber the log stays as
    it is.  The model itself is left alone. *)
Theorem recorders_log_one_entry_per_subscriber :
  (forall (lmb : ListModelBase) (log : list Entry) (i : Z),
      after (ListModelBase_PublishItemChanged (recording ListModelBase) i (mkWorld lmb log))
      = mkWorld lmb
          (log ++ repeat (Changed i)
                    (List.length (intHandlers (ListModelBase_ItemChanged lmb)))) /\
      after (ListModelBase_PublishItemsReset (recording ListModelBase) (mkWorld lmb log))
      = mkWorld lmb
          (log ++ repeat Reset (List.length (handlers (ListModelBase_ItemsReset lmb))))) /\
  (forall (tmb : TableModelBase) (log : list Entry) (i : Z),
      after (TableModelBase_PublishRowChanged (recording TableModelBase) i (mkWorld tmb log))
      = mkWorld tmb
          (log ++ repeat (Changed i)
                    (List.length (intHandlers (TableModelBase_RowChanged tmb)))) /\
      after (TableModelBase_PublishRowsReset (recording TableModelBase) (mkWorld tmb log))
      = mkWorld tmb
          (log ++ repeat Reset (List.length (handlers (TableModelBase_RowsReset tmb))))).
Proof.
  split; intros m log i; split.
  - unfold ListModelBase_PublishItemChanged, IntEventPublisher_Publish. cbn zeta. cbn [after].
    exact (dispatch_appends (Changed i) _ _ (fun h w => eq_refl) _ (mkWorld m log)).
  - unfold ListModelBase_PublishItemsReset, EventPublisher_Publish. cbn zeta. cbn [after].
    exact (dispatch_appends Reset _ _ (fun h w => eq_refl) _ (mkWorld m log)).
  - unfold TableModelBase_PublishRowChanged, IntEventPublisher_Publish. cbn zeta. cbn [after].
    exact (dispatch_appends (Changed i) _ _ (fun h w => eq_refl) _ (mkWorld m log)).
  - unfold TableModelBase_PublishRowsReset, EventPublisher_Publish. cbn zeta. cbn [after].
    exact (dispatch_appends Reset _ _ (fun h w => eq_refl) _ (mkWorld m log)).
Qed.

(** Each [Sort] of a run makes one publish. *)
Lemma sortEach_published {A : Type} (cl : Closures (SorterWorld A)) :
  forall requests w, List.length (snd (sortEach cl requests w)) = List.length requests.
Proof.
  induction requests as [|[c o] rest IH]; intros w; simpl.
  - reflexivity.
  - rewrite IH. reflexivity.
Qed.

Lemma sortEach_app {A : Type} (cl : Closures (SorterWorld A)) :
  forall r1 r2 w,
    fst (sortEach cl (r1 ++ r2) w) = fst (sortEach cl r2 (fst (sortEach cl r1 w))).
Proof.
  induction r1 as [|[c o] rest IH]; intros r2 w; simpl.
  - reflexivity.
  - apply IH.
Qed.

(** X16.  The last [Sort] wins and every [Sort] notifies.  After any
    run of [Sort] calls, [SortedColumn()] and [SortOrder()] are the
    arguments of the last call, and the run has made as many publishes
    as calls, also where a call repeats the arguments of the call
    before.  The handlers are taken not to call [Sort] themselves. *)
Theorem last_Sort_wins :
  forall (A : Type) (cl : Closures (SorterWorld A)),
    keepsSortState cl ->
    forall (requests : list (Z * SortOrder)) (c : Z) (o : SortOrder) (w : SorterWorld A),
      let r := sortEach cl (requests ++ [(c, o)]) w in
      SorterBase_SortedColumn (self (fst r)) = c /\
      SorterBase_SortOrder (self (fst r)) = o /\
      List.length (snd r) = S (List.length requests).
Proof.
  intros A cl keep requests c o w r. subst r.
  rewrite sortEach_published, length_app, sortEach_app. cbn [sortEach fst List.length].
  destruct (Sort_state keep c o (fst (sortEach cl requests w))) as [[Hc Ho] _].
  split; [exact Hc|]. split; [exact Ho | lia].
Qed.

(** Column 5 ascending, 2 descending twice, then unsorted. *)
Lemma last_Sort_wins_witness :
  let r := sortEach (counting SorterBase)
             [(5%Z, SortAscending); (2%Z, SortDescending); (2%Z, SortDescending);
              ((-1)%Z, SortDescending)]
             sorterSample in
  keepsSortState (counting SorterBase) /\
  SorterBase_SortedColumn (self (fst r)) = (-1)%Z /\
  SorterBase_SortOrder (self (fst r)) = SortDescending /\
  List.length (snd r) = 4 /\
  app (fst r) = 8.
Proof.
  cbv zeta.
  pose proof (last_Sort_wins counting_keepsSortState
                [(5%Z, SortAscending); (2%Z, SortDescending); (2%Z, SortDescending)]
                (-1)%Z SortDescending sorterSample) as H.
  cbv zeta in H. destruct H as [Hc [Ho Hl]].
  split; [exact counting_keepsSortState|].
  split; [exact Hc|]. split; [exact Ho|]. split; [exact Hl | reflexivity].
Defined.

End ModelRunFacts.
